(** * A shallow embedding of the FastAPI item service

    The service has three source modules: [app/schemas.py] (the pydantic
    payload shapes), [app/main.py] (session dependency, startup retry loop,
    the two endpoints and the 422 handler) and [app/observability.py]
    (logging set-up and the request middleware with its Prometheus metrics).

    Python code that mutates the outside world is written in a state and
    exception monad [M S A]; the state [S] carries everything the code can
    observe or change (database rows, sessions, ORM objects, metrics, the
    log, the clock).  What the environment decides (whether a database call
    fails, what the clock reads) is an oracle stored in the state.  The
    clock counts in integer ticks.

    Left out: [setup_tracing] and [setup_metrics], which only configure
    exporters, and the [ItemUpdate] schema, which no endpoint uses. *)

From stdpp Require Import base option list strings gmap pretty.
From Stdlib Require Import ZArith Lia Ascii.

Local Open Scope string_scope.
Local Open Scope list_scope.
Local Open Scope Z_scope.

(** ** Python exceptions *)

(** An error location and its kind, as pydantic reports a violation.  The
    message and type strings differ between pydantic releases, so the kind is
    kept symbolic. *)
Inductive error_kind := Missing | StrTypeExpected.

Record ErrorDetail := { loc : list string; kind : error_kind }.

(** Errors raised by SQLAlchemy.  [OperationalError] is the class the startup
    loop catches; [OtherSQLAlchemyError] stands for every other subclass of
    [SQLAlchemyError] (IntegrityError, InvalidRequestError, ...). *)
Inductive sa_error :=
| OperationalError (msg : string)
| OtherSQLAlchemyError (msg : string).

(** The subclasses of Python's [Exception] that occur in the service. *)
Inductive exc :=
| HTTPException (status_code : Z) (detail : string)
| RequestValidationError (errors : list ErrorDetail)
| ResponseValidationError
| SQLAlchemyError (e : sa_error)
| AttributeError (msg : string)
| ValueError (msg : string)
| TypeError (msg : string)
| OtherException (msg : string).

(** [isinstance(e, OperationalError)] *)
Definition is_OperationalError (e : exc) : bool :=
  match e with
  | SQLAlchemyError (OperationalError _) => true
  | _ => false
  end.

(** [isinstance(e, HTTPException)] *)
Definition is_HTTPException (e : exc) : bool :=
  match e with
  | HTTPException _ _ => true
  | _ => false
  end.

(** [str(e)] *)
Definition str_exc (e : exc) : string :=
  match e with
  | HTTPException c d => pretty c +:+ ": " +:+ d
  | RequestValidationError _ => "validation error"
  | ResponseValidationError => "response validation error"
  | SQLAlchemyError (OperationalError m) => m
  | SQLAlchemyError (OtherSQLAlchemyError m) => m
  | AttributeError m => m
  | ValueError m => m
  | TypeError m => m
  | OtherException m => m
  end.

(** ** The state and exception monad *)

Definition M (S A : Type) : Type := S → (A + exc) * S.

Definition ret {S A} (a : A) : M S A := λ s, (inl a, s).
Definition raise {S A} (e : exc) : M S A := λ s, (inr e, s).
Definition bind {S A B} (m : M S A) (k : A → M S B) : M S B :=
  λ s, match m s with
       | (inl a, s') => k a s'
       | (inr e, s') => (inr e, s')
       end.

#[global] Instance M_ret {S} : MRet (M S) := λ A, ret.
#[global] Instance M_bind {S} : MBind (M S) := λ A B k m, bind m k.

Definition get {S} : M S S := λ s, (inl s, s).
Definition modify {S} (f : S → S) : M S unit := λ s, (inl tt, f s).

(** [try: m except Exception as e: h e] *)
Definition try_except {S A} (m : M S A) (h : exc → M S A) : M S A :=
  λ s, match m s with
       | (inl a, s') => (inl a, s')
       | (inr e, s') => h e s'
       end.

(** [try: m finally: fin] *)
Definition try_finally {S A} (m : M S A) (fin : M S unit) : M S A :=
  λ s, match m s with
       | (r, s') =>
           match fin s' with
           | (inl _, s'') => (r, s'')
           | (inr e, s'') => (inr e, s'')
           end
       end.

(** The outcome of one pass through the body of a [for] loop. *)
Inductive loop_ctl := Continue | Break.

(** [for i in indices: body i], where the body may [break]. *)
Fixpoint for_in {S} (indices : list Z) (body : Z → M S loop_ctl) : M S unit :=
  match indices with
  | [] => ret tt
  | i :: rest =>
      c ← body i;
      match c with
      | Break => ret tt
      | Continue => for_in rest body
      end
  end.

(** [range(n)] *)
Definition range (n : Z) : list Z := Z.of_nat <$> seq 0 (Z.to_nat n).

(** ** app/main.py: the startup sequencer *)

Module startup.

(** What the process does while it starts. *)
Inductive event :=
| CreateTables
| Print (line : string)
| Sleep (seconds : Z).

(** [create_tables_outcome n] is what the [n]-th call (from 0) of
    [database.create_tables()] does: [None] when it succeeds, [Some e]
    when it raises [e].  [app/database.py] is not among the sources, so
    what the call does is left to this oracle. *)
Record boot := {
  create_tables_outcome : nat → option exc;
  create_tables_calls : nat;
  trace : list event;
}.

Definition emit (ev : event) : M boot unit :=
  modify (λ b, {| create_tables_outcome := create_tables_outcome b;
                  create_tables_calls := create_tables_calls b;
                  trace := trace b ++ [ev] |}).

Definition create_tables : M boot unit :=
  b ← get;
  modify (λ b, {| create_tables_outcome := create_tables_outcome b;
                  create_tables_calls := S (create_tables_calls b);
                  trace := trace b ++ [CreateTables] |});;
  match create_tables_outcome b (create_tables_calls b) with
  | None => ret tt
  | Some e => raise e
  end.

Definition print (line : string) : M boot unit := emit (Print line).
Definition time_sleep (seconds : Z) : M boot unit := emit (Sleep seconds).

Definition startup_event : M boot unit :=
  let max_retries := 5 in
  let retry_delay := 5 in
  for_in (range max_retries) (λ i,
    try_except
      (create_tables;;
       print "Database tables created successfully";;
       ret Break)
      (λ e,
         if is_OperationalError e then
           if i <? max_retries - 1 then
             print ("Database not ready, retrying in " +:+ pretty retry_delay
                    +:+ " seconds...");;
             time_sleep retry_delay;;
             ret Continue
           else
             print "Max retries reached. Could not connect to the database.";;
             raise e
         else raise e)).

(** Observations on a trace. *)
Definition is_attempt (ev : event) : bool :=
  match ev with CreateTables => true | _ => false end.

Definition attempts (t : list event) : nat :=
  length (List.filter is_attempt t).

Definition sleeps (t : list event) : list Z :=
  omap (λ ev, match ev with Sleep d => Some d | _ => None end) t.

End startup.

(** ** app/schemas.py *)

Module schemas.

(** [class ItemBase(BaseModel)]: [name: str], [description: str], both
    required. *)
Record ItemBase := { name : string; description : string }.

(** [class ItemCreate(ItemBase): pass] *)
Definition ItemCreate := ItemBase.

(** [class Item(ItemBase)]: the inherited fields and [id: int]. *)
Record Item := { base : ItemBase; id : Z }.

(** [item.dict()] *)
Definition dict (item : ItemBase) : list (string * string) :=
  [("name", name item); ("description", description item)].

(** A JSON value of a member of the request body; the contents of nested
    arrays and objects are never inspected. *)
Inductive json :=
| JNull
| JBool (b : bool)
| JNumber (n : Z)
| JString (s : string)
| JArray
| JObject.

(** Validation of one required [str] field of the body [body] (a JSON
    object): a violation is reported at location [["body"; field]]. *)
Definition validate_str (body : gmap string json) (field : string)
  : string + ErrorDetail :=
  match body !! field with
  | None => inr {| loc := ["body"; field]; kind := Missing |}
  | Some (JString s) => inl s
  | Some _ => inr {| loc := ["body"; field]; kind := StrTypeExpected |}
  end.

(** Validation of a body against [ItemCreate]: the fields are checked in
    declaration order and every violation is collected. *)
Definition validate_ItemCreate (body : gmap string json)
  : ItemCreate + list ErrorDetail :=
  match validate_str body "name", validate_str body "description" with
  | inl n, inl d => inl {| name := n; description := d |}
  | inr e1, inl _ => inr [e1]
  | inl _, inr e2 => inr [e2]
  | inr e1, inr e2 => inr [e1; e2]
  end.

End schemas.

(** ** The ORM class and the database *)

Module models.

(** Modelled from the spec: [app/models.py] is not among the sources.  The
    spec's data model gives the entity its three attributes; the [id] of an
    object is [None] until the store has assigned one. *)
Record Item := { id : option Z; name : string; description : string }.

(** The constructor call of [create_item]: a fresh object whose keyword
    arguments are the entries of [item.dict()]. *)
Definition new (kwargs : schemas.ItemBase) : Item :=
  {| id := None; name := schemas.name kwargs;
     description := schemas.description kwargs |}.

End models.

(** A row of the items table. *)
Record Row := { row_id : Z; row_name : string; row_description : string }.

(** The calls a handler makes on its session. *)
Inductive db_op := OpAdd | OpCommit | OpRefresh | OpRollback | OpQuery.

#[global] Instance db_op_eq_dec : EqDecision db_op.
Proof. solve_decision. Defined.

(** A SQLAlchemy session: the objects added and not yet flushed (references
    into the heap), and whether [close()] has been called. *)
Record Session := { new : list nat; is_closed : bool }.

(** ** The logging module's state *)

Inductive stream := stdout | stderr.

Record Handler := { handler_level : Z; handler_stream : stream; json_format : bool }.

Record Logger := { handlers : list Handler; level : Z; propagate : bool }.

Inductive log_value :=
| LStr (s : string)
| LInt (n : Z)
| LDict (d : list (string * string)).

Record LogRecord := {
  levelno : Z;
  message : string;
  extra : list (string * log_value);
}.

(** ** The world a request runs in *)

Record world := {
  (** the committed rows of the items table, oldest first *)
  table : list Row;
  (** the next value of the primary-key sequence *)
  next_id : Z;
  (** [faults h op]: the error with which call [op] on session [h] fails *)
  faults : nat → db_op → option sa_error;
  (** the session calls made so far *)
  db_calls : list (nat * db_op);
  (** ORM objects, by reference *)
  heap : list models.Item;
  (** sessions, by handle *)
  sessions : list Session;
  (** the root logger and what its handlers have written *)
  root_logger : Logger;
  output : list LogRecord;
  (** Prometheus metrics of [app/observability.py] *)
  REQUEST_COUNT : Z;
  REQUEST_LATENCY : list Z;
  IN_PROGRESS : Z;
  (** [time_source n]: what the [n]-th call of [time.time()] returns *)
  time_source : nat → Z;
  time_calls : nat;
  (** [os.environ] *)
  environ : gmap string string;
}.

(** Field updates. *)

Definition set_table (f : list Row → list Row) (w : world) : world :=
  {| table := f (table w); next_id := next_id w; faults := faults w;
     db_calls := db_calls w; heap := heap w; sessions := sessions w;
     root_logger := root_logger w; output := output w;
     REQUEST_COUNT := REQUEST_COUNT w; REQUEST_LATENCY := REQUEST_LATENCY w;
     IN_PROGRESS := IN_PROGRESS w; time_source := time_source w;
     time_calls := time_calls w; environ := environ w |}.

Definition set_next_id (f : Z → Z) (w : world) : world :=
  {| table := table w; next_id := f (next_id w); faults := faults w;
     db_calls := db_calls w; heap := heap w; sessions := sessions w;
     root_logger := root_logger w; output := output w;
     REQUEST_COUNT := REQUEST_COUNT w; REQUEST_LATENCY := REQUEST_LATENCY w;
     IN_PROGRESS := IN_PROGRESS w; time_source := time_source w;
     time_calls := time_calls w; environ := environ w |}.

Definition set_db_calls (f : list (nat * db_op) → list (nat * db_op)) (w : world) : world :=
  {| table := table w; next_id := next_id w; faults := faults w;
     db_calls := f (db_calls w); heap := heap w; sessions := sessions w;
     root_logger := root_logger w; output := output w;
     REQUEST_COUNT := REQUEST_COUNT w; REQUEST_LATENCY := REQUEST_LATENCY w;
     IN_PROGRESS := IN_PROGRESS w; time_source := time_source w;
     time_calls := time_calls w; environ := environ w |}.

Definition set_heap (f : list models.Item → list models.Item) (w : world) : world :=
  {| table := table w; next_id := next_id w; faults := faults w;
     db_calls := db_calls w; heap := f (heap w); sessions := sessions w;
     root_logger := root_logger w; output := output w;
     REQUEST_COUNT := REQUEST_COUNT w; REQUEST_LATENCY := REQUEST_LATENCY w;
     IN_PROGRESS := IN_PROGRESS w; time_source := time_source w;
     time_calls := time_calls w; environ := environ w |}.

Definition set_sessions (f : list Session → list Session) (w : world) : world :=
  {| table := table w; next_id := next_id w; faults := faults w;
     db_calls := db_calls w; heap := heap w; sessions := f (sessions w);
     root_logger := root_logger w; output := output w;
     REQUEST_COUNT := REQUEST_COUNT w; REQUEST_LATENCY := REQUEST_LATENCY w;
     IN_PROGRESS := IN_PROGRESS w; time_source := time_source w;
     time_calls := time_calls w; environ := environ w |}.

Definition set_root_logger (f : Logger → Logger) (w : world) : world :=
  {| table := table w; next_id := next_id w; faults := faults w;
     db_calls := db_calls w; heap := heap w; sessions := sessions w;
     root_logger := f (root_logger w); output := output w;
     REQUEST_COUNT := REQUEST_COUNT w; REQUEST_LATENCY := REQUEST_LATENCY w;
     IN_PROGRESS := IN_PROGRESS w; time_source := time_source w;
     time_calls := time_calls w; environ := environ w |}.

Definition set_output (f : list LogRecord → list LogRecord) (w : world) : world :=
  {| table := table w; next_id := next_id w; faults := faults w;
     db_calls := db_calls w; heap := heap w; sessions := sessions w;
     root_logger := root_logger w; output := f (output w);
     REQUEST_COUNT := REQUEST_COUNT w; REQUEST_LATENCY := REQUEST_LATENCY w;
     IN_PROGRESS := IN_PROGRESS w; time_source := time_source w;
     time_calls := time_calls w; environ := environ w |}.

Definition set_REQUEST_COUNT (f : Z → Z) (w : world) : world :=
  {| table := table w; next_id := next_id w; faults := faults w;
     db_calls := db_calls w; heap := heap w; sessions := sessions w;
     root_logger := root_logger w; output := output w;
     REQUEST_COUNT := f (REQUEST_COUNT w);
     REQUEST_LATENCY := REQUEST_LATENCY w; IN_PROGRESS := IN_PROGRESS w;
     time_source := time_source w; time_calls := time_calls w;
     environ := environ w |}.

Definition set_REQUEST_LATENCY (f : list Z → list Z) (w : world) : world :=
  {| table := table w; next_id := next_id w; faults := faults w;
     db_calls := db_calls w; heap := heap w; sessions := sessions w;
     root_logger := root_logger w; output := output w;
     REQUEST_COUNT := REQUEST_COUNT w;
     REQUEST_LATENCY := f (REQUEST_LATENCY w); IN_PROGRESS := IN_PROGRESS w;
     time_source := time_source w; time_calls := time_calls w;
     environ := environ w |}.

Definition set_IN_PROGRESS (f : Z → Z) (w : world) : world :=
  {| table := table w; next_id := next_id w; faults := faults w;
     db_calls := db_calls w; heap := heap w; sessions := sessions w;
     root_logger := root_logger w; output := output w;
     REQUEST_COUNT := REQUEST_COUNT w; REQUEST_LATENCY := REQUEST_LATENCY w;
     IN_PROGRESS := f (IN_PROGRESS w); time_source := time_source w;
     time_calls := time_calls w; environ := environ w |}.

Definition set_time_calls (f : nat → nat) (w : world) : world :=
  {| table := table w; next_id := next_id w; faults := faults w;
     db_calls := db_calls w; heap := heap w; sessions := sessions w;
     root_logger := root_logger w; output := output w;
     REQUEST_COUNT := REQUEST_COUNT w; REQUEST_LATENCY := REQUEST_LATENCY w;
     IN_PROGRESS := IN_PROGRESS w; time_source := time_source w;
     time_calls := f (time_calls w); environ := environ w |}.

(** [for x in xs: body x] without [break]. *)
Fixpoint for_each {S A} (xs : list A) (body : A → M S unit) : M S unit :=
  match xs with
  | [] => ret tt
  | x :: rest => body x;; for_each rest body
  end.

(** ** Python's [logging] module *)

Module logging.

Definition CRITICAL : Z := 50.
Definition ERROR : Z := 40.
Definition WARNING : Z := 30.
Definition INFO : Z := 20.
Definition DEBUG : Z := 10.
Definition NOTSET : Z := 0.

(** [Logger.handle]: a record that passes the logger's level is written
    by every handler whose own level admits it. *)
Definition handle (lg : Logger) (r : LogRecord) : list LogRecord :=
  if levelno r <? level lg then []
  else (λ _, r) <$> List.filter (λ h, handler_level h <=? levelno r) (handlers lg).

(** [logger.log(lvl, msg, extra=extra)] on the root logger. *)
Definition Logger_log (lvl : Z) (msg : string)
    (ex : list (string * log_value)) : M world unit :=
  modify (λ w, set_output (λ o, o ++ handle (root_logger w)
             {| levelno := lvl; message := msg; extra := ex |}) w).

(** [logging.basicConfig()] as the module-level functions call it: a root
    logger without handlers gets a plain handler on standard error. *)
Definition with_default_handler (lg : Logger) : Logger :=
  match handlers lg with
  | [] => {| handlers := [{| handler_level := NOTSET;
                             handler_stream := stderr;
                             json_format := false |}];
             level := level lg; propagate := propagate lg |}
  | _ => lg
  end.

Definition basicConfig : M world unit :=
  modify (set_root_logger with_default_handler).

(** The module-level [logging.info], [logging.warning], [logging.error]. *)
Definition info (msg : string) (ex : list (string * log_value)) : M world unit :=
  basicConfig;; Logger_log INFO msg ex.
Definition warning (msg : string) (ex : list (string * log_value)) : M world unit :=
  basicConfig;; Logger_log WARNING msg ex.
Definition error (msg : string) (ex : list (string * log_value)) : M world unit :=
  basicConfig;; Logger_log ERROR msg ex.

End logging.

(** ** The persistence gateway *)

Module database.

(** Modelled from the spec: [app/database.py] is not among the sources.
    The spec's persistence gateway "opens a database session per request";
    [SessionLocal()] hands out a fresh, open session with nothing pending. *)
Definition SessionLocal : M world nat :=
  λ w, (inl (length (sessions w)),
        set_sessions (λ l, l ++ [{| new := []; is_closed := false |}]) w).

End database.

Definition of_row (r : Row) : models.Item :=
  {| models.id := Some (row_id r); models.name := row_name r;
     models.description := row_description r |}.

(** [SELECT ... WHERE id = i] and [.first()] *)
Definition find_row (i : Z) (t : list Row) : option Row :=
  List.find (λ r, row_id r =? i) t.

Definition alloc (o : models.Item) : M world nat :=
  λ w, (inl (length (heap w)), set_heap (λ h, h ++ [o]) w).

Definition deref (obj : nat) : M world models.Item :=
  w ← get;
  match heap w !! obj with
  | Some o => ret o
  | None => raise (OtherException "dangling object reference")
  end.

(** The methods of [sqlalchemy.orm.Session] the handlers call; [db] is the
    handle of the session. *)
Module session.

(** Every call is recorded and may fail as the environment decides. *)
Definition call (db : nat) (op : db_op) : M world unit :=
  w ← get;
  modify (set_db_calls (λ c, c ++ [(db, op)]));;
  match faults w db op with
  | Some e => raise (SQLAlchemyError e)
  | None => ret tt
  end.

Definition pending (db : nat) : M world (list nat) :=
  w ← get;
  match sessions w !! db with
  | Some s => ret (new s)
  | None => raise (OtherException "no such session")
  end.

Definition set_pending (db : nat) (f : list nat → list nat) : M world unit :=
  modify (set_sessions (alter (λ s, {| new := f (new s); is_closed := is_closed s |}) db)).

(** [db.add(obj)] *)
Definition add (db obj : nat) : M world unit :=
  call db OpAdd;;
  set_pending db (λ l, l ++ [obj]).

(** The INSERT of one pending object: the store assigns the next id of the
    sequence to the row and to the object.  An object that already has an
    id is persistent and is not inserted again. *)
Definition insert (obj : nat) : M world unit :=
  o ← deref obj;
  match models.id o with
  | Some _ => ret tt
  | None =>
      w ← get;
      let i := next_id w in
      modify (set_table (λ t, t ++ [{| row_id := i; row_name := models.name o;
                                       row_description := models.description o |}]));;
      modify (set_next_id Z.succ);;
      modify (set_heap (<[obj := {| models.id := Some i; models.name := models.name o;
                                   models.description := models.description o |}]>))
  end.

(** [db.commit()]: flush what is pending and make it durable; a failure
    leaves the table as it was. *)
Definition commit (db : nat) : M world unit :=
  call db OpCommit;;
  objs ← pending db;
  for_each objs insert;;
  set_pending db (λ _, []).

(** [db.refresh(obj)]: reload the attributes of [obj] from its row. *)
Definition refresh (db obj : nat) : M world unit :=
  call db OpRefresh;;
  o ← deref obj;
  w ← get;
  match models.id o with
  | None =>
      raise (SQLAlchemyError (OtherSQLAlchemyError "Instance is not persistent within this Session"))
  | Some i =>
      match find_row i (table w) with
      | None => raise (SQLAlchemyError (OtherSQLAlchemyError "Could not refresh instance"))
      | Some r => modify (set_heap (<[obj := of_row r]>))
      end
  end.

(** [db.rollback()]: nothing pending survives. *)
Definition rollback (db : nat) : M world unit :=
  call db OpRollback;;
  set_pending db (λ _, []).

(** [db.query(models.Item).filter(models.Item.id == item_id).first()] *)
Definition query_first (db : nat) (item_id : Z) : M world (option nat) :=
  call db OpQuery;;
  w ← get;
  match find_row item_id (table w) with
  | None => ret None
  | Some r => obj ← alloc (of_row r); ret (Some obj)
  end.

(** [db.close()] *)
Definition close (db : nat) : M world unit :=
  modify (set_sessions (alter (λ _, {| new := []; is_closed := true |}) db)).

End session.

(** ** Requests and responses *)

Inductive Route :=
| PostItems (body : gmap string schemas.json)   (* POST /items/ *)
| GetItem (item_id : Z)                          (* GET /items/{item_id} *)
| GetMetrics                                     (* GET /metrics *)
| NoRoute (http_method : string).                (* anything else *)

(** [client] is [request.client]: the peer's host, or [None] when the server
    does not know the peer. *)
Record Request := { route : Route; url : string; client : option string }.

Definition method (request : Request) : string :=
  match route request with
  | PostItems _ => "POST"
  | GetItem _ | GetMetrics => "GET"
  | NoRoute m => m
  end.

Inductive Content :=
| ItemContent (item : schemas.Item)
| Detail (detail : string)
| DetailErrors (errors : list ErrorDetail)
| PlainText (text : string)
| MetricsText (http_requests_total : Z) (http_request_duration_seconds : list Z)
              (in_progress_requests : Z).

Record Response := { status_code : Z; content : Content }.

(** ** app/observability.py *)

Module observability.

(** A value found as an attribute of a Python module. *)
Inductive py_value := PyInt (n : Z) | PyStr (s : string) | PyObject.

Definition upper_ascii (c : ascii) : ascii :=
  let n := Ascii.N_of_ascii c in
  if ((97 <=? n) && (n <=? 122))%N then Ascii.ascii_of_N (n - 32) else c.

(** [str.upper()], on ASCII text. *)
Fixpoint upper (s : string) : string :=
  match s with
  | EmptyString => EmptyString
  | String c rest => String (upper_ascii c) (upper rest)
  end.

(** [logging._nameToLevel] *)
Definition nameToLevel (name : string) : option Z :=
  if String.eqb name "CRITICAL" then Some logging.CRITICAL
  else if String.eqb name "FATAL" then Some logging.CRITICAL
  else if String.eqb name "ERROR" then Some logging.ERROR
  else if String.eqb name "WARN" then Some logging.WARNING
  else if String.eqb name "WARNING" then Some logging.WARNING
  else if String.eqb name "INFO" then Some logging.INFO
  else if String.eqb name "DEBUG" then Some logging.DEBUG
  else if String.eqb name "NOTSET" then Some logging.NOTSET
  else None.

(** [getattr(logging, name, default)] for an upper-case [name]: the level
    constants, and the two other upper-case attributes of the module. *)
Definition getattr_logging (name : string) (fallback : py_value) : py_value :=
  match nameToLevel name with
  | Some n => PyInt n
  | None =>
      if String.eqb name "BASIC_FORMAT" then PyStr "%(levelname)s:%(name)s:%(message)s"
      else if String.eqb name "_STYLES" then PyObject
      else fallback
  end.

(** [logging._checkLevel], which [setLevel] applies to its argument. *)
Definition checkLevel {S} (v : py_value) : M S Z :=
  match v with
  | PyInt n => ret n
  | PyStr s =>
      match nameToLevel s with
      | Some n => ret n
      | None => raise (ValueError ("Unknown level: " +:+ s))
      end
  | PyObject => raise (TypeError "Level not an integer or a valid string")
  end.

(** [os.getenv(key, default)] *)
Definition getenv (key fallback : string) : M world string :=
  w ← get; ret (default fallback (environ w !! key)).

Definition setup_logging : M world unit :=
  (* logger = logging.getLogger(); logger.handlers.clear() *)
  modify (set_root_logger (λ lg,
    {| handlers := []; level := level lg; propagate := propagate lg |}));;
  v ← getenv "LOG_LEVEL" "INFO";
  let log_level := upper v in
  (* logHandler = logging.StreamHandler() *)
  let logHandler := {| handler_level := logging.NOTSET;
                       handler_stream := stderr; json_format := false |} in
  (* logHandler.setFormatter(formatter) *)
  let logHandler := {| handler_level := handler_level logHandler;
                       handler_stream := handler_stream logHandler;
                       json_format := true |} in
  (* logHandler.setLevel(getattr(logging, log_level, logging.INFO)) *)
  l ← checkLevel (getattr_logging log_level (PyInt logging.INFO));
  let logHandler := {| handler_level := l;
                       handler_stream := handler_stream logHandler;
                       json_format := json_format logHandler |} in
  (* logger.addHandler(logHandler) *)
  modify (set_root_logger (λ lg,
    {| handlers := handlers lg ++ [logHandler]; level := level lg;
       propagate := propagate lg |}));;
  (* logger.setLevel(getattr(logging, log_level, logging.INFO)) *)
  l ← checkLevel (getattr_logging log_level (PyInt logging.INFO));
  modify (set_root_logger (λ lg,
    {| handlers := handlers lg; level := l; propagate := propagate lg |}));;
  (* logger.propagate = False *)
  modify (set_root_logger (λ lg,
    {| handlers := handlers lg; level := level lg; propagate := false |})).

(** [time.time()] *)
Definition time_time : M world Z :=
  λ w, (inl (time_source w (time_calls w)), set_time_calls S w).

(** The custom Prometheus metrics. *)
Definition REQUEST_COUNT_inc : M world unit := modify (set_REQUEST_COUNT (λ c, c + 1)).
Definition REQUEST_LATENCY_observe (d : Z) : M world unit :=
  modify (set_REQUEST_LATENCY (λ h, h ++ [d])).
Definition IN_PROGRESS_inc : M world unit := modify (set_IN_PROGRESS (λ g, g + 1)).
Definition IN_PROGRESS_dec : M world unit := modify (set_IN_PROGRESS (λ g, g - 1)).

(** [request.client.host] *)
Definition client_host (request : Request) : M world string :=
  match client request with
  | Some host => ret host
  | None => raise (AttributeError "'NoneType' object has no attribute 'host'")
  end.

Definition log_requests (request : Request)
    (call_next : Request → M world Response) : M world Response :=
  start_time ← time_time;
  IN_PROGRESS_inc;;
  response ← call_next request;
  now ← time_time;
  let duration := now - start_time in
  REQUEST_COUNT_inc;;
  REQUEST_LATENCY_observe duration;;
  IN_PROGRESS_dec;;
  host ← client_host request;
  logging.Logger_log logging.INFO "Request processed"
    [("method", LStr (method request));
     ("url", LStr (url request));
     ("status_code", LInt (status_code response));
     ("client_host", LStr host);
     ("duration", LInt duration)];;
  ret response.

(** What the metrics endpoint exposes of the three custom metrics. *)
Definition metrics_app : M world Response :=
  w ← get;
  ret {| status_code := 200;
         content := MetricsText (REQUEST_COUNT w) (REQUEST_LATENCY w) (IN_PROGRESS w) |}.

End observability.

(** ** app/main.py: the session dependency, the 422 handler, the endpoints *)

Module main.

(** [get_db]: a generator dependency; [use db] is what runs while the
    generator is suspended at [yield db]. *)
Definition get_db {A} (use : nat → M world A) : M world A :=
  db ← database.SessionLocal;
  try_finally (use db) (session.close db).

Definition str_loc (e : ErrorDetail) : string :=
  String.concat "." (loc e).

Definition validation_exception_handler (request : Request)
    (errors : list ErrorDetail) : M world Response :=
  logging.error ("Validation error for request " +:+ url request +:+ ": "
                 +:+ String.concat ", " (str_loc <$> errors)) [];;
  ret {| status_code := 422; content := DetailErrors errors |}.

Definition str_id (i : option Z) : string :=
  match i with Some n => pretty n | None => "None" end.

Definition create_item (item : schemas.ItemCreate) (db : nat) : M world nat :=
  try_except
    (logging.info "Attempting to create a new item"
       [("item_data", LDict (schemas.dict item))];;
     db_item ← alloc (models.new item);
     session.add db db_item;;
     session.commit db;;
     session.refresh db db_item;;
     o ← deref db_item;
     logging.info ("Successfully created new item: " +:+ str_id (models.id o))
       [("item_name", LStr (models.name o))];;
     ret db_item)
    (λ e,
       if is_HTTPException e then
         logging.error ("HTTP error while creating item: " +:+ str_exc e) [];;
         raise e
       else
         logging.error ("Failed to create item: " +:+ str_exc e)
           [("item_data", LDict (schemas.dict item))];;
         session.rollback db;;
         raise (HTTPException 500 "Failed to create item")).

Definition read_item (item_id : Z) (db : nat) : M world nat :=
  try_except
    (logging.info ("Attempting to retrieve item: " +:+ pretty item_id) [];;
     found ← session.query_first db item_id;
     match found with
     | None =>
         logging.warning ("Item not found: " +:+ pretty item_id) [];;
         raise (HTTPException 404 "Item not found")
     | Some item =>
         o ← deref item;
         logging.info ("Successfully retrieved item: " +:+ pretty item_id)
           [("item_name", LStr (models.name o))];;
         ret item
     end)
    (λ e,
       if is_HTTPException e then
         logging.error ("HTTP error while retrieving item: " +:+ pretty item_id
                        +:+ ", error: " +:+ str_exc e) [];;
         raise e
       else
         logging.error ("Unexpected error while retrieving item: "
                        +:+ pretty item_id +:+ ", error: " +:+ str_exc e) [];;
         raise (HTTPException 500 "Failed to retrieve item")).

End main.

(** ** How FastAPI runs the application *)

Module fastapi.

(** [response_model=schemas.Item] with [orm_mode]: the response body is
    read off the attributes of the returned object. *)
Definition serialize_Item (obj : nat) : M world Response :=
  o ← deref obj;
  match models.id o with
  | Some i =>
      ret {| status_code := 200;
             content := ItemContent
               {| schemas.base := {| schemas.name := models.name o;
                                     schemas.description := models.description o |};
                  schemas.id := i |} |}
  | None => raise ResponseValidationError
  end.

(** The route of [create_item]: dependencies are solved first, then the
    body is validated, and only a valid body reaches the function. *)
Definition post_items (body : gmap string schemas.json) : M world Response :=
  main.get_db (λ db,
    match schemas.validate_ItemCreate body with
    | inr errors => raise (RequestValidationError errors)
    | inl item => obj ← main.create_item item db; serialize_Item obj
    end).

(** The route of [read_item]. *)
Definition get_item (item_id : Z) : M world Response :=
  main.get_db (λ db, obj ← main.read_item item_id db; serialize_Item obj).

Definition router (request : Request) : M world Response :=
  match route request with
  | PostItems body => post_items body
  | GetItem item_id => get_item item_id
  | GetMetrics => observability.metrics_app
  | NoRoute _ => raise (HTTPException 404 "Not Found")
  end.

(** The exception handlers: FastAPI's own for [HTTPException], and the one
    [main.py] registers for [RequestValidationError]. *)
Definition endpoint (request : Request) : M world Response :=
  try_except (router request)
    (λ e, match e with
          | HTTPException c d => ret {| status_code := c; content := Detail d |}
          | RequestValidationError errors =>
              main.validation_exception_handler request errors
          | _ => raise e
          end).

(** The outermost layer answers an exception nobody handled with a plain
    500. *)
Definition answer (r : Response + exc) : Response :=
  match r with
  | inl response => response
  | inr _ => {| status_code := 500; content := PlainText "Internal Server Error" |}
  end.

Definition server_error (m : M world Response) : world → Response * world :=
  λ w, let (r, w') := m w in (answer r, w').

(** The application: [log_requests] wraps every route. *)
Definition app (request : Request) : world → Response * world :=
  server_error (observability.log_requests request endpoint).

End fastapi.

(** ** Vocabulary of the statements *)

(** *** The startup sequencer *)

(** The states of the sequencer once [startup_event] has run. *)
Inductive startup_state := Ready | Failed (e : exc).

Definition final_state (r : unit + exc) : startup_state :=
  match r with inl _ => Ready | inr e => Failed e end.

(** The database refuses the [j]-th coming call of [create_tables] with a
    connectivity error. *)
Definition unreachable_at (b : startup.boot) (j : nat) : Prop :=
  ∃ e, startup.create_tables_outcome b (startup.create_tables_calls b + j) = Some e
       ∧ is_OperationalError e = true.

(** [b] after [n] more calls of [create_tables] that left the events [evs]. *)
Definition advance (b : startup.boot) (n : nat) (evs : list startup.event) : startup.boot :=
  {| startup.create_tables_outcome := startup.create_tables_outcome b;
     startup.create_tables_calls := n + startup.create_tables_calls b;
     startup.trace := startup.trace b ++ evs |}.

(** One failed attempt that is retried, and [n] of them in a row. *)
Definition retry_round : list startup.event :=
  [startup.CreateTables;
   startup.Print ("Database not ready, retrying in " +:+ pretty 5 +:+ " seconds...");
   startup.Sleep 5].

Fixpoint retry_rounds (n : nat) : list startup.event :=
  match n with
  | O => []
  | S n' => retry_round ++ retry_rounds n'
  end.

(** The events of a run that took [b] to [b']. *)
Definition new_events (b b' : startup.boot) : list startup.event :=
  drop (length (startup.trace b)) (startup.trace b').

(** The body of the loop of [startup_event], at index [i]. *)
Definition attempt (i : Z) : M startup.boot loop_ctl :=
  try_except
    (startup.create_tables;;
     startup.print "Database tables created successfully";;
     ret Break)
    (λ e,
       if is_OperationalError e then
         if i <? 5 - 1 then
           startup.print ("Database not ready, retrying in " +:+ pretty 5
                          +:+ " seconds...");;
           startup.time_sleep 5;;
           ret Continue
         else
           startup.print "Max retries reached. Could not connect to the database.";;
           raise e
       else raise e).

(** *** The store *)

(** The invariant of the items table: ids are unique, and all of them were
    handed out by the sequence. *)
Definition store_ok (w : world) : Prop :=
  NoDup (row_id <$> table w) ∧ Forall (λ r, row_id r < next_id w) (table w).

(** The response body for a row. *)
Definition item_of_row (r : Row) : schemas.Item :=
  {| schemas.base := {| schemas.name := row_name r;
                        schemas.description := row_description r |};
     schemas.id := row_id r |}.

(** The violation pydantic reports for an absent required field. *)
Definition missing (field : string) : ErrorDetail :=
  {| loc := ["body"; field]; kind := Missing |}.

(** The session calls a run added to the record. *)
Definition new_calls (w w' : world) : list (nat * db_op) :=
  drop (length (db_calls w)) (db_calls w').

(** The first of the three session calls of [create_item] that the
    environment lets fail on session [db], if any. *)
Definition create_failure (w : world) (db : nat) : option (db_op * sa_error) :=
  match faults w db OpAdd with
  | Some e => Some (OpAdd, e)
  | None =>
      match faults w db OpCommit with
      | Some e => Some (OpCommit, e)
      | None =>
          match faults w db OpRefresh with
          | Some e => Some (OpRefresh, e)
          | None => None
          end
      end
  end.

(** *** The middleware *)

(** The world in which [log_requests] hands the request to [call_next]: the
    clock has been read once and the gauge has been incremented. *)
Definition entered (w : world) : world :=
  set_IN_PROGRESS (λ g, g + 1) (set_time_calls S w).

(** Requests served one after the other by the application, none of them
    overlapping: the number of those whose exception escaped [call_next],
    and the world afterwards. *)
Fixpoint serve_all (requests : list Request) (w : world) : nat * world :=
  match requests with
  | [] => (O, w)
  | request :: rest =>
      let escaped :=
        match fst (fastapi.endpoint request (entered w)) with
        | inl _ => O
        | inr _ => 1%nat
        end in
      let (n, w') := serve_all rest (snd (fastapi.app request w)) in
      ((escaped + n)%nat, w')
  end.

(** A computation leaves the observation [f] of the world as it was,
    however it ends. *)
Definition preserves {A B} (f : world → B) (m : M world A) : Prop :=
  ∀ w, f (snd (m w)) = f w.

(** A computation keeps the property [P] of the world, however it ends. *)
Definition maintains {A} (P : world → Prop) (m : M world A) : Prop :=
  ∀ w, P w → P (snd (m w)).

(** ** Concrete inputs *)

(** A database that never comes up. *)
Definition boot_down : startup.boot :=
  {| startup.create_tables_outcome :=
       λ _, Some (SQLAlchemyError (OperationalError "connection refused"));
     startup.create_tables_calls := 0;
     startup.trace := [] |}.

(** A database that comes up for the third attempt. *)
Definition boot_late : startup.boot :=
  {| startup.create_tables_outcome :=
       λ n, if (n <? 2)%nat
            then Some (SQLAlchemyError (OperationalError "connection refused"))
            else None;
     startup.create_tables_calls := 0;
     startup.trace := [] |}.

(** A database whose table definitions are rejected. *)
Definition boot_rejected : startup.boot :=
  {| startup.create_tables_outcome :=
       λ _, Some (SQLAlchemyError (OtherSQLAlchemyError "syntax error"));
     startup.create_tables_calls := 0;
     startup.trace := [] |}.

(** A fresh process in front of an empty table, where the session calls
    fail as [fl] says. *)
Definition fresh_world (fl : nat → db_op → option sa_error)
    (env : gmap string string) : world :=
  {| table := []; next_id := 1; faults := fl; db_calls := [];
     heap := []; sessions := [];
     root_logger := {| handlers := []; level := logging.WARNING; propagate := true |};
     output := [];
     REQUEST_COUNT := 0; REQUEST_LATENCY := []; IN_PROGRESS := 0;
     time_source := λ n, Z.of_nat n; time_calls := 0;
     environ := env |}.

Definition no_faults : nat → db_op → option sa_error := λ _ _, None.

(** Every call of [op] fails. *)
Definition failing (op : db_op) : nat → db_op → option sa_error :=
  λ _ op', if decide (op' = op) then Some (OperationalError "connection lost") else None.

(** Every commit and every rollback fails. *)
Definition connection_gone : nat → db_op → option sa_error :=
  λ _ op, match op with
          | OpCommit | OpRollback => Some (OperationalError "connection lost")
          | _ => None
          end.

Definition widget : gmap string schemas.json :=
  {[ "name" := schemas.JString "widget";
     "description" := schemas.JString "a small widget" ]}.

Definition nameless : gmap string schemas.json :=
  {[ "description" := schemas.JString "a small widget" ]}.

Definition post (body : gmap string schemas.json) : Request :=
  {| route := PostItems body; url := "http://testserver/items/";
     client := Some "127.0.0.1" |}.

Definition get_item_1 : Request :=
  {| route := GetItem 1; url := "http://testserver/items/1";
     client := Some "127.0.0.1" |}.

(** A world whose table holds one item. *)
Definition world_with_widget : world :=
  snd (fastapi.endpoint (post widget) (fresh_world no_faults ∅)).

(** *** Vocabulary of the further properties *)

(** The routes whose function depends on [get_db]. *)
Definition opens_session (r : Route) : bool :=
  match r with
  | PostItems _ | GetItem _ => true
  | GetMetrics | NoRoute _ => false
  end.

(** A session after [close()]. *)
Definition closed_session : Session := {| new := []; is_closed := true |}.

(** The session calls of [create_item], given the first call that fails. *)
Definition create_calls (failure : option (db_op * sa_error)) : list db_op :=
  match failure with
  | None => [OpAdd; OpCommit; OpRefresh]
  | Some (OpAdd, _) => [OpAdd; OpRollback]
  | Some (OpCommit, _) => [OpAdd; OpCommit; OpRollback]
  | Some (_, _) => [OpAdd; OpCommit; OpRefresh; OpRollback]
  end.

(** The record [log_requests] hands to the logger for a request. *)
Definition request_line (request : Request) (response : Response)
    (host : string) (duration : Z) : LogRecord :=
  {| levelno := logging.INFO;
     message := "Request processed";
     extra := [("method", LStr (method request));
               ("url", LStr (url request));
               ("status_code", LInt (status_code response));
               ("client_host", LStr host);
               ("duration", LInt duration)] |}.

(** The rows and ids of [w0] are still there. *)
Definition grown_from (w0 w : world) : Prop :=
  table w0 `prefix_of` table w ∧ next_id w0 ≤ next_id w.

(** The root logger has one handler, and logger and handler both let
    records from INFO upwards through. *)
Definition writes_from_info (lg : Logger) : Prop :=
  ∃ h, handlers lg = [h]
       ∧ handler_level h ≤ logging.INFO ∧ level lg ≤ logging.INFO.

(** The levels of the records a run has written. *)
Definition new_levels (w w' : world) : list Z :=
  levelno <$> drop (length (output w)) (output w').

(** A fresh process after [setup_logging], with [LOG_LEVEL] unset. *)
Definition configured_world (fl : nat → db_op → option sa_error) : world :=
  snd (observability.setup_logging (fresh_world fl ∅)).

(** A create request from a peer the server does not know. *)
Definition post_unknown_peer : Request :=
  {| route := PostItems widget; url := "http://testserver/items/"; client := None |}.

Definition scrape : Request :=
  {| route := GetMetrics; url := "http://testserver/metrics";
     client := Some "127.0.0.1" |}.

Definition widget_row : Row :=
  {| row_id := 1; row_name := "widget"; row_description := "a small widget" |}.

Definition widget_response (i : Z) : Response :=
  {| status_code := 200;
     content := ItemContent
       {| schemas.base := {| schemas.name := "widget";
                             schemas.description := "a small widget" |};
          schemas.id := i |} |}.

(** * Theorems *)

(** Unfold the monad so that a computation runs on the state at hand. *)
Ltac run :=
  unfold mbind, M_bind, bind, mret, M_ret, ret, raise, get, modify,
    try_except, try_finally in *;
  cbv beta iota delta
    [set_table set_next_id set_db_calls set_heap set_sessions set_root_logger
     set_output set_REQUEST_COUNT set_REQUEST_LATENCY set_IN_PROGRESS
     set_time_calls];
  cbn.

(** Bring a world built with field updates into record form. *)
Ltac record_form H :=
  cbv beta iota delta
    [set_table set_next_id set_db_calls set_heap set_sessions set_root_logger
     set_output set_REQUEST_COUNT set_REQUEST_LATENCY set_IN_PROGRESS
     set_time_calls] in H;
  cbn in H.

Section Startup.
Import startup.

Lemma startup_event_loop : startup_event = for_in (range 5) attempt.
Proof. reflexivity. Qed.

Lemma advance_0 b : advance b 0 [] = b.
Proof. destruct b; unfold advance; simpl. by rewrite app_nil_r. Qed.

Lemma advance_advance b n1 e1 n2 e2 :
  advance (advance b n1 e1) n2 e2 = advance b (n1 + n2) (e1 ++ e2).
Proof.
  unfold advance; simpl. f_equal; [lia | by rewrite app_assoc].
Qed.

Lemma unreachable_at_advance b n evs j :
  unreachable_at (advance b n evs) j ↔ unreachable_at b (n + j).
Proof.
  unfold unreachable_at; simpl.
  by replace (n + create_tables_calls b + j)%nat
    with (create_tables_calls b + (n + j))%nat by lia.
Qed.

(** A successful attempt leaves the loop. *)
Lemma attempt_success i b :
  create_tables_outcome b (create_tables_calls b) = None →
  attempt i b
  = (inl Break, advance b 1 [CreateTables; Print "Database tables created successfully"]).
Proof.
  intros H. unfold attempt, create_tables, print, emit, advance.
  run. rewrite H. cbn. by rewrite <- app_assoc.
Qed.

(** A connectivity error before the last index: print, sleep, go on. *)
Lemma attempt_retry i b e :
  create_tables_outcome b (create_tables_calls b) = Some e →
  is_OperationalError e = true → i < 4 →
  attempt i b = (inl Continue, advance b 1 retry_round).
Proof.
  intros H He Hi.
  unfold attempt, create_tables, print, time_sleep, emit, advance, retry_round.
  run. rewrite H. cbn. rewrite He.
  rewrite (proj2 (Z.ltb_lt i (5 - 1))) by lia.
  cbn. by rewrite <- !app_assoc.
Qed.

(** A connectivity error at the last index is raised again. *)
Lemma attempt_give_up i b e :
  create_tables_outcome b (create_tables_calls b) = Some e →
  is_OperationalError e = true → 4 ≤ i →
  attempt i b
  = (inr e, advance b 1
       [CreateTables; Print "Max retries reached. Could not connect to the database."]).
Proof.
  intros H He Hi. unfold attempt, create_tables, print, emit, advance.
  run. rewrite H. cbn. rewrite He.
  rewrite (proj2 (Z.ltb_ge i (5 - 1))) by lia.
  cbn. by rewrite <- !app_assoc.
Qed.

(** Any other exception leaves the handler at once. *)
Lemma attempt_other i b e :
  create_tables_outcome b (create_tables_calls b) = Some e →
  is_OperationalError e = false →
  attempt i b = (inr e, advance b 1 [CreateTables]).
Proof.
  intros H He. unfold attempt, create_tables, advance.
  run. rewrite H. cbn. by rewrite He.
Qed.

(** [n] refused attempts in a row, none of them the last one. *)
Lemma for_in_retries n : ∀ i rest b,
  (i + n ≤ 4)%nat →
  (∀ j, (j < n)%nat → unreachable_at b j) →
  for_in ((Z.of_nat <$> seq i n) ++ rest) attempt b
  = for_in rest attempt (advance b n (retry_rounds n)).
Proof.
  induction n as [|n IH]; intros i rest b Hi Hdown.
  - cbn. by rewrite advance_0.
  - destruct (Hdown O) as (e & He & Hop); [lia|].
    rewrite Nat.add_0_r in He.
    cbn [seq fmap list_fmap app for_in].
    unfold mbind, M_bind, bind.
    rewrite (attempt_retry _ _ e) by (done || lia).
    rewrite IH.
    + by rewrite advance_advance.
    + lia.
    + intros j Hj. apply unreachable_at_advance, Hdown. lia.
Qed.

Lemma range_split k :
  (k < 5)%nat →
  range 5 = (Z.of_nat <$> seq 0 k) ++ Z.of_nat k :: (Z.of_nat <$> seq (S k) (4 - k)).
Proof. intros Hk. do 5 (destruct k as [|k]; [reflexivity|]). lia. Qed.

(** What the loop does when attempt number [k] (from 0) is the first one
    that is not refused with a connectivity error. *)
Lemma startup_event_at k b :
  (k < 5)%nat →
  (∀ j, (j < k)%nat → unreachable_at b j) →
  startup_event b
  = (c ← attempt (Z.of_nat k);
     match c with
     | Break => ret tt
     | Continue => for_in (Z.of_nat <$> seq (S k) (4 - k)) attempt
     end) (advance b k (retry_rounds k)).
Proof.
  intros Hk Hdown.
  rewrite startup_event_loop, (range_split k Hk), for_in_retries by (done || lia).
  reflexivity.
Qed.

Lemma attempts_retry_rounds n rest :
  attempts (retry_rounds n ++ rest) = (n + attempts rest)%nat.
Proof.
  induction n as [|n IH]; [done|].
  unfold attempts in *. cbn. by rewrite IH.
Qed.

Lemma sleeps_retry_rounds n rest :
  sleeps (retry_rounds n ++ rest) = replicate n 5 ++ sleeps rest.
Proof.
  induction n as [|n IH]; [done|].
  unfold sleeps in *. cbn. by rewrite IH.
Qed.

Lemma new_events_advance b n evs : new_events b (advance b n evs) = evs.
Proof. unfold new_events, advance; cbn. by rewrite drop_app_length. Qed.

Lemma outcome_advance b n evs :
  create_tables_outcome (advance b n evs) (create_tables_calls (advance b n evs))
  = create_tables_outcome b (create_tables_calls b + n).
Proof. cbn. f_equal. lia. Qed.

(** C2.  Against a database that refuses every attempt with a connectivity
    error, [startup_event] calls [create_tables] exactly five times, sleeps
    five seconds after each of the first four failures, and raises the
    error of the fifth attempt (the sequencer ends in [Failed]).  When
    attempt number [k] (from 0, [k < 5]) is the first that succeeds, the
    loop stops there: [k + 1] attempts, [k] sleeps of five seconds, no
    exception (the sequencer ends in [Ready]). *)
Theorem startup_event_retry_bound (b : boot) :
  ((∀ j, unreachable_at b j) →
   ∃ e, create_tables_outcome b (create_tables_calls b + 4) = Some e ∧
     let (r, b') := startup_event b in
     final_state r = Failed e ∧
     new_events b b'
     = retry_rounds 4
       ++ [CreateTables;
           Print "Max retries reached. Could not connect to the database."] ∧
     attempts (new_events b b') = 5%nat ∧
     sleeps (new_events b b') = [5; 5; 5; 5])
  ∧
  (∀ k, (k < 5)%nat →
     (∀ j, (j < k)%nat → unreachable_at b j) →
     create_tables_outcome b (create_tables_calls b + k) = None →
     let (r, b') := startup_event b in
     final_state r = Ready ∧
     new_events b b'
     = retry_rounds k
       ++ [CreateTables; Print "Database tables created successfully"] ∧
     attempts (new_events b b') = S k ∧
     sleeps (new_events b b') = replicate k 5).
Proof.
  split.
  - intros Hdown. destruct (Hdown 4%nat) as (e & He & Hop).
    exists e. split; [done|].
    rewrite (startup_event_at 4) by (lia || auto).
    unfold mbind, M_bind, bind.
    rewrite (attempt_give_up _ _ e);
      [| by rewrite outcome_advance | done | done].
    rewrite advance_advance, new_events_advance.
    by rewrite attempts_retry_rounds, sleeps_retry_rounds.
  - intros k Hk Hdown Hok.
    rewrite (startup_event_at k) by done.
    unfold mbind, M_bind, bind.
    rewrite attempt_success;
      [| by rewrite outcome_advance].
    cbn [ret]. rewrite advance_advance, new_events_advance.
    rewrite attempts_retry_rounds, sleeps_retry_rounds.
    cbn. rewrite app_nil_r. repeat split; (done || lia).
Qed.

(** C9.  Only a connectivity error is retried.  When attempt number [k]
    fails with any other exception (the earlier attempts, if any, having
    been refused with connectivity errors), that exception leaves
    [startup_event] at once: [create_tables] is not called again, nothing
    is printed and there is no sleep after it.  For [k = 0] the run
    consists of the one call. *)
Theorem startup_event_other_exception (b : boot) (k : nat) (e : exc) :
  (k < 5)%nat →
  (∀ j, (j < k)%nat → unreachable_at b j) →
  create_tables_outcome b (create_tables_calls b + k) = Some e →
  is_OperationalError e = false →
  let (r, b') := startup_event b in
  final_state r = Failed e ∧
  new_events b b' = retry_rounds k ++ [CreateTables] ∧
  attempts (new_events b b') = S k ∧
  sleeps (new_events b b') = replicate k 5.
Proof.
  intros Hk Hdown He Hop.
  rewrite (startup_event_at k) by done.
  unfold mbind, M_bind, bind.
  rewrite (attempt_other _ _ e);
    [| by rewrite outcome_advance | done].
  rewrite advance_advance, new_events_advance.
  rewrite attempts_retry_rounds, sleeps_retry_rounds.
  cbn. rewrite app_nil_r. repeat split; (done || lia).
Qed.

End Startup.

(** ** Lists that grow at the end *)

Section Snoc.
Context {A : Type}.
Implicit Types (l : list A) (x y : A).

Lemma lookup_snoc l x : (l ++ [x]) !! length l = Some x.
Proof. by apply list_lookup_middle. Qed.

Lemma alter_snoc (f : A → A) l x : alter f (length l) (l ++ [x]) = l ++ [f x].
Proof. induction l; cbn; [done|]. by f_equal. Qed.

Lemma insert_snoc l x y : <[length l := y]> (l ++ [x]) = l ++ [y].
Proof. induction l; cbn; [done|]. by f_equal. Qed.

Lemma drop_snoc l x : drop (length l) (l ++ [x]) = [x].
Proof. by rewrite drop_app_length. Qed.
End Snoc.

Create Rewrite HintDb world.
#[local] Hint Rewrite @lookup_snoc @alter_snoc @insert_snoc : world.

(** ** The table *)

Section Table.
Implicit Types (t : list Row) (r : Row) (i : Z).

Lemma find_row_id i t r : find_row i t = Some r → row_id r = i ∧ r ∈ t.
Proof.
  unfold find_row. intros H. apply find_some in H as [Hin Heq].
  split; [lia | by apply list_elem_of_In].
Qed.

Lemma find_row_None i t : find_row i t = None ↔ ∀ r, r ∈ t → row_id r ≠ i.
Proof.
  unfold find_row. split.
  - intros H r Hr Hi. apply list_elem_of_In in Hr.
    pose proof (find_none _ _ H r Hr) as Hf. cbn in Hf. lia.
  - intros H. induction t as [|a t IH]; [done|]. cbn.
    destruct (Z.eqb_spec (row_id a) i) as [Heq|_].
    + exfalso. apply (H a); [left | done].
    + apply IH. intros r Hr. apply H. by right.
Qed.

Lemma find_row_fresh i t : Forall (λ r, row_id r < i) t → find_row i t = None.
Proof.
  intros H. apply find_row_None. intros r Hr.
  rewrite Forall_forall in H. specialize (H r Hr). cbn in H. lia.
Qed.

Lemma find_row_snoc_None i t r :
  find_row i t = None →
  find_row i (t ++ [r]) = if row_id r =? i then Some r else None.
Proof.
  unfold find_row. induction t as [|a t IH]; cbn; [done|].
  destruct (row_id a =? i); [done | apply IH].
Qed.

Lemma find_row_snoc_Some i t r r' :
  find_row i t = Some r' → find_row i (t ++ [r]) = Some r'.
Proof.
  unfold find_row. induction t as [|a t IH]; cbn; [done|].
  destruct (row_id a =? i); [done | apply IH].
Qed.

(** With unique ids, looking up the id of a stored row finds that row. *)
Lemma find_row_unique t r :
  NoDup (row_id <$> t) → r ∈ t → find_row (row_id r) t = Some r.
Proof.
  unfold find_row. induction t as [|a t IH]; intros Hnd Hr.
  - by apply elem_of_nil in Hr.
  - cbn in *. apply NoDup_cons in Hnd as [Ha Hnd].
    apply elem_of_cons in Hr as [->|Hr].
    + by rewrite Z.eqb_refl.
    + destruct (Z.eqb_spec (row_id a) (row_id r)) as [Heq|_]; [|by apply IH].
      exfalso. apply Ha. rewrite Heq. by apply list_elem_of_fmap_2.
Qed.

End Table.

(** ** Observations that a computation leaves alone *)

Section Frame.
Context {B : Type} (f : world → B).

Lemma preserves_ret {A} (a : A) : preserves f (ret a).
Proof. by intros w. Qed.

Lemma preserves_raise {A} (e : exc) : preserves f (raise (A := A) e).
Proof. by intros w. Qed.

Lemma preserves_get : preserves f get.
Proof. by intros w. Qed.

Lemma preserves_modify (g : world → world) :
  (∀ w, f (g w) = f w) → preserves f (modify g).
Proof. intros H w. apply H. Qed.

Lemma preserves_bind {A C} (m : M world A) (k : A → M world C) :
  preserves f m → (∀ a, preserves f (k a)) → preserves f (m ≫= k).
Proof.
  intros Hm Hk w. unfold mbind, M_bind, bind.
  specialize (Hm w). destruct (m w) as [[a|e] w1]; cbn in *; [|done].
  by rewrite Hk.
Qed.

Lemma preserves_try_except {A} (m : M world A) (h : exc → M world A) :
  preserves f m → (∀ e, preserves f (h e)) → preserves f (try_except m h).
Proof.
  intros Hm Hh w. unfold try_except.
  specialize (Hm w). destruct (m w) as [[a|e] w1]; cbn in *; [done|].
  by rewrite Hh.
Qed.

Lemma preserves_try_finally {A} (m : M world A) (fin : M world unit) :
  preserves f m → preserves f fin → preserves f (try_finally m fin).
Proof.
  intros Hm Hfin w. unfold try_finally.
  specialize (Hm w). destruct (m w) as [r w1]; cbn in *.
  specialize (Hfin w1). destruct (fin w1) as [[[]|e] w2]; cbn in *; congruence.
Qed.

Lemma preserves_for_each {A} (xs : list A) (body : A → M world unit) :
  (∀ x, preserves f (body x)) → preserves f (for_each xs body).
Proof.
  intros Hb. induction xs as [|x xs IH]; cbn.
  - apply preserves_ret.
  - by apply preserves_bind.
Qed.

End Frame.

(** Decompose a computation into its primitive steps and check each. *)
Ltac frame_step :=
  first
    [ apply preserves_bind; [|intros ?]
    | apply preserves_try_except; [|intros ?]
    | apply preserves_try_finally
    | apply preserves_for_each; intros ?
    | apply preserves_ret
    | apply preserves_raise
    | apply preserves_get
    | apply preserves_modify; intros ?; cbn; by rewrite ?length_alter
    | match goal with
      | |- preserves _ (match ?x with _ => _ end) => destruct x
      end
    | by intros ? ].

Ltac frame :=
  unfold fastapi.endpoint, fastapi.router, fastapi.post_items, fastapi.get_item,
    fastapi.serialize_Item, main.validation_exception_handler,
    main.create_item, main.read_item,
    session.add, session.commit, session.refresh, session.rollback,
    session.query_first, session.close, session.call, session.pending,
    session.set_pending, session.insert, deref, observability.metrics_app,
    logging.info, logging.error, logging.warning, logging.basicConfig,
    logging.Logger_log;
  repeat frame_step.

(** ** Running a request on a given world *)

Ltac unfold_ops :=
  unfold fastapi.endpoint, fastapi.router, fastapi.post_items, fastapi.get_item,
    fastapi.serialize_Item, main.validation_exception_handler,
    main.get_db, main.create_item, main.read_item, database.SessionLocal,
    session.add, session.commit, session.refresh, session.rollback,
    session.query_first, session.close, session.call, session.pending,
    session.set_pending, session.insert, alloc, deref,
    logging.info, logging.error, logging.warning, logging.basicConfig,
    logging.Logger_log in *.

#[local] Arguments find_row : simpl never.
#[local] Arguments logging.with_default_handler : simpl never.
#[local] Arguments logging.handle : simpl never.
#[local] Arguments pretty : simpl never.

Ltac exec := repeat progress (unfold_ops; run; autorewrite with world).

(** The same, using the facts at hand about the environment after each step. *)
Tactic Notation "exec" "by" tactic3(known) :=
  repeat progress (unfold_ops; run; autorewrite with world; known).

(** ** The get endpoint *)

Section Read.

Lemma get_item_found (w : world) (request : Request) (item_id : Z) (row : Row) :
  route request = GetItem item_id →
  faults w (length (sessions w)) OpQuery = None →
  find_row item_id (table w) = Some row →
  let (r, w') := fastapi.endpoint request w in
  r = inl {| status_code := 200; content := ItemContent (item_of_row row) |}
  ∧ table w' = table w ∧ next_id w' = next_id w.
Proof.
  intros Hr Hq Hrow. unfold fastapi.endpoint, fastapi.router. rewrite Hr.
  destruct w; cbn in *. by exec by rewrite ?Hq, ?Hrow.
Qed.

Lemma get_item_not_found (w : world) (request : Request) (item_id : Z) :
  route request = GetItem item_id →
  faults w (length (sessions w)) OpQuery = None →
  find_row item_id (table w) = None →
  let (r, w') := fastapi.endpoint request w in
  r = inl {| status_code := 404; content := Detail "Item not found" |}
  ∧ table w' = table w ∧ next_id w' = next_id w.
Proof.
  intros Hr Hq Hrow. unfold fastapi.endpoint, fastapi.router. rewrite Hr.
  destruct w; cbn in *. by exec by rewrite ?Hq, ?Hrow.
Qed.

Lemma get_item_error (w : world) (request : Request) (item_id : Z) (e : sa_error) :
  route request = GetItem item_id →
  faults w (length (sessions w)) OpQuery = Some e →
  let (r, w') := fastapi.endpoint request w in
  r = inl {| status_code := 500; content := Detail "Failed to retrieve item" |}
  ∧ table w' = table w ∧ next_id w' = next_id w.
Proof.
  intros Hr Hq. unfold fastapi.endpoint, fastapi.router. rewrite Hr.
  destruct w; cbn in *. by exec by rewrite ?Hq.
Qed.

(** C3.  A get request for [item_id] is answered
    - with status 200 and the stored row's [{id, name, description}] when
      a row with that id is in the table,
    - with status 404 and "Item not found" when no row has that id,
    - with status 500 and "Failed to retrieve item" when the lookup itself
      fails with a database error. *)
Theorem read_item_responses (w : world) (request : Request) (item_id : Z) :
  route request = GetItem item_id →
  let db := length (sessions w) in
  let r := fst (fastapi.endpoint request w) in
  (∀ row, faults w db OpQuery = None →
          NoDup (row_id <$> table w) → row ∈ table w → row_id row = item_id →
          r = inl {| status_code := 200; content := ItemContent (item_of_row row) |})
  ∧ (faults w db OpQuery = None →
     (∀ row, row ∈ table w → row_id row ≠ item_id) →
     r = inl {| status_code := 404; content := Detail "Item not found" |})
  ∧ (∀ e, faults w db OpQuery = Some e →
          r = inl {| status_code := 500; content := Detail "Failed to retrieve item" |}).
Proof.
  intros Hr db r. subst db r. repeat split.
  - intros row Hq Hnd Hin Hid.
    pose proof (get_item_found w request item_id row Hr Hq) as H.
    rewrite <- Hid, find_row_unique in H by done.
    destruct (fastapi.endpoint request w). by apply H.
  - intros Hq Hnone.
    pose proof (get_item_not_found w request item_id Hr Hq) as H.
    destruct (fastapi.endpoint request w). by apply H, find_row_None.
  - intros e Hq.
    pose proof (get_item_error w request item_id e Hr Hq) as H.
    by destruct (fastapi.endpoint request w) as [? ?], H.
Qed.

End Read.

Section Create.
Import schemas.

Lemma validate_ItemCreate_valid (body : gmap string json) n d :
  body !! "name" = Some (JString n) →
  body !! "description" = Some (JString d) →
  validate_ItemCreate body = inl {| name := n; description := d |}.
Proof.
  intros Hn Hd. unfold validate_ItemCreate, validate_str. by rewrite Hn, Hd.
Qed.

Lemma store_ok_insert t nid n d :
  NoDup (row_id <$> t) ∧ Forall (λ r, row_id r < nid) t →
  NoDup (row_id <$> (t ++ [{| row_id := nid; row_name := n; row_description := d |}]))
  ∧ Forall (λ r, row_id r < Z.succ nid)
      (t ++ [{| row_id := nid; row_name := n; row_description := d |}]).
Proof.
  intros [Hnd Hlt]. split.
  - rewrite fmap_app. apply NoDup_app. repeat split; [done | | apply NoDup_singleton].
    intros i Hi Hi'. cbn in Hi'. apply list_elem_of_singleton in Hi' as ->.
    apply list_elem_of_fmap in Hi as (r & Hr & Hin).
    rewrite Forall_forall in Hlt. specialize (Hlt r Hin). cbn in Hlt. lia.
  - apply Forall_app. split.
    + eapply Forall_impl; [done|]. cbn. intros; lia.
    + apply Forall_singleton. cbn. lia.
Qed.

(** C4.  A create request whose body carries the strings [n] and [d] as
    name and description and whose add, commit and refresh all go through
    is answered with status 200 and the body [{id, name, description}],
    where the id is the one the store has just handed out: no row had it
    before, the table has gained exactly the row [(id, n, d)], and ids
    stay unique. *)
Theorem create_item_success (w : world) (request : Request)
    (body : gmap string json) (n d : string) :
  route request = PostItems body →
  body !! "name" = Some (JString n) →
  body !! "description" = Some (JString d) →
  faults w (length (sessions w)) OpAdd = None →
  faults w (length (sessions w)) OpCommit = None →
  faults w (length (sessions w)) OpRefresh = None →
  store_ok w →
  let (r, w') := fastapi.endpoint request w in
  r = inl {| status_code := 200;
             content := ItemContent {| base := {| name := n; description := d |};
                                       id := next_id w |} |}
  ∧ (∀ row, row ∈ table w → row_id row ≠ next_id w)
  ∧ table w' = table w ++ [{| row_id := next_id w; row_name := n;
                              row_description := d |}]
  ∧ store_ok w'.
Proof.
  intros Hr Hn Hd Ha Hc Hf Hok.
  pose proof (find_row_fresh _ _ (proj2 Hok)) as Hfresh.
  unfold fastapi.endpoint, fastapi.router, fastapi.post_items.
  rewrite Hr, (validate_ItemCreate_valid _ _ _ Hn Hd).
  destruct w; unfold store_ok in *; cbn in *.
  exec. rewrite Ha. exec. rewrite Hc. exec. rewrite Hf. exec.
  rewrite (find_row_snoc_None _ _ _ Hfresh). cbn. rewrite Z.eqb_refl.
  exec.
  repeat split.
  - by apply find_row_None.
  - by apply store_ok_insert.
  - by apply store_ok_insert.
Qed.

End Create.

(** ** The session of a request *)

Section Sessions.

Lemma create_item_sessions item db :
  preserves (λ w, length (sessions w)) (main.create_item item db).
Proof. frame. Qed.

Lemma read_item_sessions item_id db :
  preserves (λ w, length (sessions w)) (main.read_item item_id db).
Proof. frame. Qed.

Lemma serialize_Item_sessions obj :
  preserves (λ w, length (sessions w)) (fastapi.serialize_Item obj).
Proof. frame. Qed.

(** Whatever runs at the [yield] of [get_db] and however it ends, the
    session handed out is closed afterwards. *)
Lemma get_db_closes {A} (use : nat → M world A) (w : world) :
  (∀ db, preserves (λ w, length (sessions w)) (use db)) →
  let w' := snd (main.get_db use w) in
  length (sessions w') = S (length (sessions w))
  ∧ ∃ s, sessions w' !! length (sessions w) = Some s ∧ is_closed s = true.
Proof.
  intros Huse. unfold main.get_db, database.SessionLocal, session.close.
  run. specialize (Huse (length (sessions w))).
  match goal with |- context [use ?db ?w1] =>
    specialize (Huse w1); destruct (use db w1) as [r w2] end.
  cbn in *. rewrite length_app in Huse. cbn in Huse.
  rewrite length_alter. split; [lia|].
  destruct (lookup_lt_is_Some_2 (sessions w2) (length (sessions w))) as [s Hs]; [lia|].
  exists {| new := []; is_closed := true |}.
  by rewrite list_lookup_alter_eq, Hs.
Qed.

(** C7.  A request to the create or to the get endpoint acquires exactly
    one session, and when the request is over that session is closed:
    whatever the body holds, whatever the database does, and whether the
    handler returns, raises an HTTP error or lets another exception
    escape. *)
Theorem session_closed_on_exit (w : world) (request : Request) :
  ((∃ body, route request = PostItems body)
   ∨ (∃ item_id, route request = GetItem item_id)) →
  let w' := snd (fastapi.endpoint request w) in
  length (sessions w') = S (length (sessions w))
  ∧ ∃ s, sessions w' !! length (sessions w) = Some s ∧ is_closed s = true.
Proof.
  intros Hroute.
  assert (let w1 := snd (fastapi.router request w) in
          length (sessions w1) = S (length (sessions w))
          ∧ ∃ s, sessions w1 !! length (sessions w) = Some s ∧ is_closed s = true)
    as Hrouter.
  { unfold fastapi.router.
    destruct Hroute as [[body ->]|[item_id ->]].
    - apply get_db_closes. intros db.
      destruct (schemas.validate_ItemCreate body).
      + apply preserves_bind; [apply create_item_sessions|].
        intros obj. apply serialize_Item_sessions.
      + apply preserves_raise.
    - apply get_db_closes. intros db.
      apply preserves_bind; [apply read_item_sessions|].
      intros obj. apply serialize_Item_sessions. }
  unfold fastapi.endpoint, try_except. cbn in *.
  destruct (fastapi.router request w) as [[r|e] w1]; cbn in *; [done|].
  by destruct e.
Qed.

End Sessions.

(** ** Invalid bodies *)

Section Validation.
Import schemas.

(** A body that lacks a required field is rejected, and the errors name
    exactly the required fields that are absent. *)
Lemma validate_ItemCreate_missing (body : gmap string json) :
  body !! "name" = None ∨ body !! "description" = None →
  ∃ errors, validate_ItemCreate body = inr errors
    ∧ ∀ field, field ∈ ["name"; "description"] →
        (body !! field = None ↔ missing field ∈ errors).
Proof.
  intros Hmiss. unfold validate_ItemCreate, validate_str, missing.
  destruct (body !! "name") as [[]|] eqn:Hn;
    destruct (body !! "description") as [[]|] eqn:Hd;
    try (destruct Hmiss; discriminate);
    (eexists; split; [reflexivity|]);
    intros field Hfield;
    apply elem_of_cons in Hfield as [->|Hfield];
    try (apply list_elem_of_singleton in Hfield as ->);
    rewrite ?Hn, ?Hd, ?elem_of_cons, ?elem_of_nil;
    intuition (discriminate || congruence).
Qed.

Lemma post_items_invalid (w : world) (request : Request)
    (body : gmap string json) (errors : list ErrorDetail) :
  route request = PostItems body →
  validate_ItemCreate body = inr errors →
  let (r, w') := fastapi.endpoint request w in
  r = inl {| status_code := 422; content := DetailErrors errors |}
  ∧ table w' = table w ∧ next_id w' = next_id w
  ∧ db_calls w' = db_calls w ∧ heap w' = heap w.
Proof.
  intros Hr Hv. unfold fastapi.endpoint, fastapi.router, fastapi.post_items.
  rewrite Hr, Hv. destruct w; cbn in *. by exec.
Qed.

(** C5.  A create request whose body lacks [name] or [description] is
    answered with status 422 and a body that lists one "missing" error at
    [["body"; field]] for exactly the absent required fields.  The function
    [create_item] does not run: no session call is made, no object is
    created, and the table and the id sequence are as before. *)
Theorem create_item_missing_field (w : world) (request : Request)
    (body : gmap string json) :
  route request = PostItems body →
  body !! "name" = None ∨ body !! "description" = None →
  let (r, w') := fastapi.endpoint request w in
  (∃ errors,
      r = inl {| status_code := 422; content := DetailErrors errors |}
      ∧ ∀ field, field ∈ ["name"; "description"] →
          (body !! field = None ↔ missing field ∈ errors))
  ∧ new_calls w w' = []
  ∧ table w' = table w ∧ next_id w' = next_id w ∧ heap w' = heap w.
Proof.
  intros Hr Hmiss.
  destruct (validate_ItemCreate_missing body Hmiss) as (errors & Hv & Herr).
  pose proof (post_items_invalid w request body errors Hr Hv) as H.
  destruct (fastapi.endpoint request w) as [r w'].
  destruct H as (-> & Ht & Hn & Hc & Hh).
  split; [by exists errors|].
  unfold new_calls. rewrite Hc, drop_all. done.
Qed.

End Validation.

(** ** Persistence failures in the create endpoint *)

Section CreateFailure.
Import schemas.

Lemma create_item_failed (w : world) (request : Request)
    (body : gmap string json) (n d : string) (op : db_op) (e : sa_error) :
  route request = PostItems body →
  body !! "name" = Some (JString n) →
  body !! "description" = Some (JString d) →
  create_failure w (length (sessions w)) = Some (op, e) →
  let (r, w') := fastapi.endpoint request w in
  (length (sessions w), OpRollback) ∈ new_calls w w'
  ∧ status_code (fastapi.answer r) = 500
  ∧ (faults w (length (sessions w)) OpRollback = None →
     r = inl {| status_code := 500; content := Detail "Failed to create item" |})
  ∧ (op ≠ OpRefresh → table w' = table w ∧ next_id w' = next_id w).
Proof.
  intros Hr Hn Hd Hfail.
  unfold fastapi.endpoint, fastapi.router, fastapi.post_items.
  rewrite Hr, (validate_ItemCreate_valid _ _ _ Hn Hd).
  destruct w; unfold create_failure, new_calls in *; cbn in *.
  destruct (faults0 _ OpAdd) eqn:Ha;
    [|destruct (faults0 _ OpCommit) eqn:Hc;
      [|destruct (faults0 _ OpRefresh) eqn:Hf; [|done]]];
    injection Hfail as <- <-;
    destruct (faults0 (length sessions0) OpRollback) eqn:Hb;
    (exec by rewrite ?Ha, ?Hc, ?Hf, ?Hb);
    rewrite <- ?app_assoc, drop_app_length; cbn;
    (repeat split; [set_solver | done..]).
Qed.

Lemma next_id_absent (w : world) :
  store_ok w → ∀ row, row ∈ table w → row_id row ≠ next_id w.
Proof. intros [_ Hlt]. by apply find_row_None, find_row_fresh. Qed.

(** C1, as the code has it.  Let a create request with a valid body reach
    [create_item], and let [op] be the first of add, commit and refresh
    that fails.  Then [rollback] is called on the session of the request
    and the client gets a 500: the handler's "Failed to create item" when
    the rollback goes through, the server's plain 500 when the rollback
    fails as well.  When the failure is in add or in commit, nothing has
    been committed: the table is as before, and a later get for any id
    that was not in the table (the next id of the sequence is one, see
    [next_id_absent]) is answered with 404. *)
Theorem create_item_persistence_failure (w : world) (request : Request)
    (body : gmap string json) (n d : string) (op : db_op) (e : sa_error) :
  route request = PostItems body →
  body !! "name" = Some (JString n) →
  body !! "description" = Some (JString d) →
  create_failure w (length (sessions w)) = Some (op, e) →
  let (r, w') := fastapi.endpoint request w in
  (length (sessions w), OpRollback) ∈ new_calls w w'
  ∧ status_code (fastapi.answer r) = 500
  ∧ (faults w (length (sessions w)) OpRollback = None →
     r = inl {| status_code := 500; content := Detail "Failed to create item" |})
  ∧ (op ≠ OpRefresh →
     table w' = table w
     ∧ ∀ request' item_id,
         route request' = GetItem item_id →
         (∀ row, row ∈ table w → row_id row ≠ item_id) →
         faults w' (length (sessions w')) OpQuery = None →
         fst (fastapi.endpoint request' w')
         = inl {| status_code := 404; content := Detail "Item not found" |}).
Proof.
  intros Hr Hn Hd Hfail.
  pose proof (create_item_failed w request body n d op e Hr Hn Hd Hfail) as H.
  destruct (fastapi.endpoint request w) as [r w'].
  destruct H as (Hrb & Hst & Hresp & Htab).
  repeat split; try done; destruct (Htab H) as [Ht Hid]; [done|].
  intros request' item_id Hr' Habsent Hq.
  pose proof (get_item_not_found w' request' item_id Hr' Hq) as Hget.
  destruct (fastapi.endpoint request' w') as [r' w''].
  apply Hget. rewrite Ht. by apply find_row_None.
Qed.

End CreateFailure.

(** ** The request middleware *)

Section Middleware.
Import observability.

Lemma endpoint_REQUEST_COUNT request : preserves REQUEST_COUNT (fastapi.endpoint request).
Proof. unfold main.get_db. frame. Qed.

Lemma endpoint_REQUEST_LATENCY request : preserves REQUEST_LATENCY (fastapi.endpoint request).
Proof. unfold main.get_db. frame. Qed.

Lemma endpoint_IN_PROGRESS request : preserves IN_PROGRESS (fastapi.endpoint request).
Proof. unfold main.get_db. frame. Qed.

(** [log_requests] when the downstream handler returns a response. *)
Lemma log_requests_returns request call_next w response w1 :
  call_next request (entered w) = (inl response, w1) →
  let w' := snd (log_requests request call_next w) in
  REQUEST_COUNT w' = REQUEST_COUNT w1 + 1
  ∧ IN_PROGRESS w' = IN_PROGRESS w1 - 1
  ∧ ∃ duration, REQUEST_LATENCY w' = REQUEST_LATENCY w1 ++ [duration].
Proof.
  intros Hnext. unfold log_requests, time_time, IN_PROGRESS_inc, REQUEST_COUNT_inc,
    REQUEST_LATENCY_observe, IN_PROGRESS_dec, client_host, logging.Logger_log.
  destruct w. unfold entered in Hnext. record_form Hnext.
  run. rewrite Hnext.
  destruct (client request); cbn; eauto.
Qed.

(** [log_requests] when the downstream handler raises. *)
Lemma log_requests_raises request call_next w e w1 :
  call_next request (entered w) = (inr e, w1) →
  log_requests request call_next w = (inr e, w1).
Proof.
  intros Hnext. unfold log_requests, time_time, IN_PROGRESS_inc.
  destruct w. unfold entered in Hnext. record_form Hnext.
  run. by rewrite Hnext.
Qed.

Lemma entered_metrics w :
  REQUEST_COUNT (entered w) = REQUEST_COUNT w
  ∧ REQUEST_LATENCY (entered w) = REQUEST_LATENCY w
  ∧ IN_PROGRESS (entered w) = IN_PROGRESS w + 1.
Proof. done. Qed.

Lemma app_world request w :
  snd (fastapi.app request w) = snd (log_requests request fastapi.endpoint w).
Proof.
  unfold fastapi.app, fastapi.server_error.
  by destruct (log_requests request fastapi.endpoint w).
Qed.

(** The gauge after one request: back where it was, or one higher when
    the exception of the handler escaped. *)
Lemma app_IN_PROGRESS request w :
  IN_PROGRESS (snd (fastapi.app request w))
  = IN_PROGRESS w
    + match fst (fastapi.endpoint request (entered w)) with
      | inl _ => 0
      | inr _ => 1
      end.
Proof.
  rewrite app_world.
  pose proof (endpoint_IN_PROGRESS request (entered w)) as Hframe.
  destruct (fastapi.endpoint request (entered w)) as [[response|e] w1] eqn:Hnext;
    cbn in *.
  - destruct (log_requests_returns _ _ _ _ _ Hnext) as (_ & -> & _).
    rewrite Hframe. lia.
  - by rewrite (log_requests_raises _ _ _ _ _ Hnext).
Qed.

(** Nothing ever takes an escaped exception off the gauge again. *)
Lemma serve_all_IN_PROGRESS requests : ∀ w,
  IN_PROGRESS (snd (serve_all requests w))
  = IN_PROGRESS w + Z.of_nat (fst (serve_all requests w)).
Proof.
  induction requests as [|request rest IH]; intros w; cbn; [lia|].
  specialize (IH (snd (fastapi.app request w))).
  destruct (serve_all rest (snd (fastapi.app request w))) as [n w'].
  cbn in *. rewrite IH, app_IN_PROGRESS.
  destruct (fst (fastapi.endpoint request (entered w))); lia.
Qed.

(** C6.  When the handler behind the middleware returns a response to a
    request (whatever its route and status), the request counter is one
    higher after the request than before it, and that is the value the
    metrics endpoint exposes next. *)
Theorem request_counter_increment (w : world) (request : Request)
    (response : Response) (w1 : world) :
  fastapi.endpoint request (entered w) = (inl response, w1) →
  let w' := snd (fastapi.app request w) in
  REQUEST_COUNT w' = REQUEST_COUNT w + 1
  ∧ fst (metrics_app w')
    = inl {| status_code := 200;
             content := MetricsText (REQUEST_COUNT w + 1) (REQUEST_LATENCY w')
                          (IN_PROGRESS w') |}.
Proof.
  intros Hnext. cbn. rewrite app_world.
  destruct (log_requests_returns _ _ _ _ _ Hnext) as (Hcount & _).
  pose proof (endpoint_REQUEST_COUNT request (entered w)) as Hframe.
  rewrite Hnext in Hframe. cbn in Hframe.
  unfold metrics_app. run. rewrite Hcount, Hframe. done.
Qed.

(** C10.  When the exception of the handler escapes [call_next], the
    middleware passes it on and runs nothing of what follows the call:
    the request counter and the latency observations are as before, and
    the gauge, incremented on entry, is one higher than before the
    request.  No later request takes that off again: after any further
    requests, served one after the other, the gauge is still at least one
    above its value before the request. *)
Theorem escaped_exception_metrics (w : world) (request : Request)
    (e : exc) (w1 : world) :
  fastapi.endpoint request (entered w) = (inr e, w1) →
  let (r, w') := log_requests request fastapi.endpoint w in
  r = inr e
  ∧ REQUEST_COUNT w' = REQUEST_COUNT w
  ∧ REQUEST_LATENCY w' = REQUEST_LATENCY w
  ∧ IN_PROGRESS w' = IN_PROGRESS w + 1
  ∧ ∀ later, IN_PROGRESS w + 1 ≤ IN_PROGRESS (snd (serve_all later w')).
Proof.
  intros Hnext. rewrite (log_requests_raises _ _ _ _ _ Hnext).
  pose proof (endpoint_REQUEST_COUNT request (entered w)) as Hc.
  pose proof (endpoint_REQUEST_LATENCY request (entered w)) as Hl.
  pose proof (endpoint_IN_PROGRESS request (entered w)) as Hg.
  rewrite Hnext in Hc, Hl, Hg. cbn in *.
  repeat split; try done.
  intros later. rewrite serve_all_IN_PROGRESS, Hg. lia.
Qed.

End Middleware.

(** ** Logging set-up *)

Section Logging.
Import observability.

(** What [setup_logging] leaves behind when the level resolves to [l]. *)
Lemma setup_logging_resolved (w : world) (v : string) (l : Z) :
  default "INFO" (environ w !! "LOG_LEVEL") = v →
  getattr_logging (upper v) (PyInt logging.INFO) = PyInt l →
  let (r, w') := setup_logging w in
  r = inl tt
  ∧ level (root_logger w') = l
  ∧ handlers (root_logger w')
    = [{| handler_level := l; handler_stream := stderr; json_format := true |}]
  ∧ propagate (root_logger w') = false.
Proof.
  intros Hv Hl. unfold setup_logging, getenv, checkLevel.
  destruct w. cbn in Hv. run. rewrite Hv, Hl. by run.
Qed.

Lemma getattr_logging_level (name : string) (l : Z) (fallback : py_value) :
  nameToLevel name = Some l → getattr_logging name fallback = PyInt l.
Proof. intros H. unfold getattr_logging. by rewrite H. Qed.

(** C8.  [setup_logging] takes the level from [LOG_LEVEL]: when the
    variable is unset the root logger and its one handler are at INFO, and
    when it holds a level name (in any letter case) they are at the level
    of that name. *)
Theorem setup_logging_level (w : world) :
  (environ w !! "LOG_LEVEL" = None →
   let (r, w') := setup_logging w in
   r = inl tt
   ∧ level (root_logger w') = logging.INFO
   ∧ handler_level <$> handlers (root_logger w') = [logging.INFO])
  ∧ (∀ v l,
       environ w !! "LOG_LEVEL" = Some v →
       nameToLevel (upper v) = Some l →
       let (r, w') := setup_logging w in
       r = inl tt
       ∧ level (root_logger w') = l
       ∧ handler_level <$> handlers (root_logger w') = [l]).
Proof.
  split.
  - intros Henv.
    pose proof (setup_logging_resolved w "INFO" logging.INFO) as H.
    rewrite Henv in H. specialize (H eq_refl eq_refl).
    destruct (setup_logging w) as [r w']. destruct H as (-> & -> & -> & _). done.
  - intros v l Henv Hname.
    pose proof (setup_logging_resolved w v l) as H.
    rewrite Henv in H.
    specialize (H eq_refl (getattr_logging_level _ _ _ Hname)).
    destruct (setup_logging w) as [r w']. destruct H as (-> & -> & -> & _). done.
Qed.

End Logging.

(** ** The invariant of the table *)

Section Invariant.
Context (P : world → Prop).

Lemma maintains_bind {A C} (m : M world A) (k : A → M world C) :
  maintains P m → (∀ a, maintains P (k a)) → maintains P (m ≫= k).
Proof.
  intros Hm Hk w Hw. unfold mbind, M_bind, bind.
  specialize (Hm w Hw). destruct (m w) as [[a|e] w1]; cbn in *; [|done].
  by apply Hk.
Qed.

Lemma maintains_try_except {A} (m : M world A) (h : exc → M world A) :
  maintains P m → (∀ e, maintains P (h e)) → maintains P (try_except m h).
Proof.
  intros Hm Hh w Hw. unfold try_except.
  specialize (Hm w Hw). destruct (m w) as [[a|e] w1]; cbn in *; [done|].
  by apply Hh.
Qed.

Lemma maintains_try_finally {A} (m : M world A) (fin : M world unit) :
  maintains P m → maintains P fin → maintains P (try_finally m fin).
Proof.
  intros Hm Hfin w Hw. unfold try_finally.
  specialize (Hm w Hw). destruct (m w) as [r w1]; cbn in *.
  specialize (Hfin w1 Hm). by destruct (fin w1) as [[[]|e] w2].
Qed.

Lemma maintains_for_each {A} (xs : list A) (body : A → M world unit) :
  (∀ x, maintains P (body x)) → maintains P (for_each xs body).
Proof.
  intros Hb. induction xs as [|x xs IH]; cbn.
  - by intros w.
  - by apply maintains_bind.
Qed.

End Invariant.

Section StoreInvariant.

(** A step that touches neither the table nor the sequence. *)
Lemma store_ok_frame {A} (m : M world A) :
  (∀ w, table (snd (m w)) = table w ∧ next_id (snd (m w)) = next_id w) →
  maintains store_ok m.
Proof.
  intros H w Hw. destruct (H w) as [Ht Hn]. unfold store_ok. by rewrite Ht, Hn.
Qed.

(** The INSERT of an object keeps ids unique and below the sequence. *)
Lemma store_ok_insert_obj (obj : nat) : maintains store_ok (session.insert obj).
Proof.
  intros w Hw. unfold session.insert, deref. destruct w; unfold store_ok in *.
  run. destruct (heap0 !! obj) as [o|]; cbn; [|done].
  destruct (models.id o); cbn; [done|]. by apply store_ok_insert.
Qed.

Ltac maintain_step :=
  first
    [ apply store_ok_insert_obj
    | apply maintains_bind; [|intros ?]
    | apply maintains_try_except; [|intros ?]
    | apply maintains_try_finally
    | apply maintains_for_each; intros ?
    | apply store_ok_frame; intros ?; by cbn
    | match goal with
      | |- maintains _ (match ?x with _ => _ end) => destruct x
      end ].

(** Every request leaves the table with unique ids, all of them below the
    next id of the sequence. *)
Lemma store_ok_endpoint (request : Request) :
  maintains store_ok (fastapi.endpoint request).
Proof.
  unfold fastapi.endpoint, fastapi.router, fastapi.post_items, fastapi.get_item,
    fastapi.serialize_Item, main.validation_exception_handler, main.get_db,
    main.create_item, main.read_item,
    session.add, session.commit, session.refresh, session.rollback,
    session.query_first, session.close, session.call, session.pending,
    session.set_pending, deref, observability.metrics_app,
    logging.info, logging.error, logging.warning, logging.basicConfig,
    logging.Logger_log.
  repeat maintain_step.
Qed.

Lemma store_ok_app (request : Request) (w : world) :
  store_ok w → store_ok (snd (fastapi.app request w)).
Proof.
  intros Hw. rewrite app_world.
  unfold observability.log_requests, observability.time_time,
    observability.IN_PROGRESS_inc, observability.REQUEST_COUNT_inc,
    observability.REQUEST_LATENCY_observe, observability.IN_PROGRESS_dec,
    observability.client_host, logging.Logger_log.
  revert w Hw.
  repeat (apply maintains_bind; [|intros ?]);
    try (apply store_ok_frame; intros ?; by cbn).
  - apply store_ok_endpoint.
  - destruct (client request); apply store_ok_frame; intros ?; by cbn.
Qed.

End StoreInvariant.

(** ** Concrete runs *)

Section Runs.
Import startup.

Example retry_line :
  "Database not ready, retrying in " +:+ pretty 5 +:+ " seconds..."
  = "Database not ready, retrying in 5 seconds...".
Proof. vm_compute. reflexivity. Qed.

Lemma boot_down_unreachable j : unreachable_at boot_down j.
Proof. by eexists. Qed.

(** Five attempts, four sleeps, and the error of the database. *)
Lemma startup_event_retry_bound_witness :
  (∀ j, unreachable_at boot_down j)
  ∧ ∃ e, create_tables_outcome boot_down (create_tables_calls boot_down + 4) = Some e
      ∧ let (r, b') := startup_event boot_down in
        final_state r = Failed e
        ∧ new_events boot_down b'
          = retry_rounds 4
            ++ [CreateTables;
                Print "Max retries reached. Could not connect to the database."]
        ∧ attempts (new_events boot_down b') = 5%nat
        ∧ sleeps (new_events boot_down b') = [5; 5; 5; 5].
Proof.
  split; [exact boot_down_unreachable|].
  exact (proj1 (startup_event_retry_bound boot_down) boot_down_unreachable).
Defined.

(** Ready at the third attempt. *)
Lemma startup_event_ready_at_third :
  let (r, b') := startup_event boot_late in
  final_state r = Ready
  ∧ attempts (new_events boot_late b') = 3%nat
  ∧ sleeps (new_events boot_late b') = [5; 5].
Proof. vm_compute. done. Qed.

Lemma startup_event_other_exception_witness :
  ((0 < 5)%nat
   ∧ (∀ j, (j < 0)%nat → unreachable_at boot_rejected j)
   ∧ create_tables_outcome boot_rejected (create_tables_calls boot_rejected + 0)
     = Some (SQLAlchemyError (OtherSQLAlchemyError "syntax error"))
   ∧ is_OperationalError (SQLAlchemyError (OtherSQLAlchemyError "syntax error")) = false)
  ∧ let (r, b') := startup_event boot_rejected in
    final_state r = Failed (SQLAlchemyError (OtherSQLAlchemyError "syntax error"))
    ∧ new_events boot_rejected b' = retry_rounds 0 ++ [CreateTables]
    ∧ attempts (new_events boot_rejected b') = 1%nat
    ∧ sleeps (new_events boot_rejected b') = replicate 0 5.
Proof.
  assert (∀ j, (j < 0)%nat → unreachable_at boot_rejected j) as Hnone
    by (intros j Hj; lia).
  split; [repeat split; (lia || done)|].
  apply (startup_event_other_exception boot_rejected 0
           (SQLAlchemyError (OtherSQLAlchemyError "syntax error")));
    [lia | exact Hnone | reflexivity | reflexivity].
Defined.

(** The table after a widget has been created in a fresh world. *)
Example world_with_widget_table :
  table world_with_widget
  = [{| row_id := 1; row_name := "widget"; row_description := "a small widget" |}]
  ∧ next_id world_with_widget = 2.
Proof. vm_compute. done. Qed.

(** C1 as stated fails when the failure is in [refresh]: the commit has
    gone through before, so the client gets a 500 although the item is
    stored, and a get for the id that was assigned finds it. *)
Lemma create_item_refresh_failure_persists :
  let w := fresh_world (failing OpRefresh) ∅ in
  create_failure w (length (sessions w))
  = Some (OpRefresh, OperationalError "connection lost")
  ∧ next_id w = 1
  ∧ let (r, w') := fastapi.endpoint (post widget) w in
    r = inl {| status_code := 500; content := Detail "Failed to create item" |}
    ∧ new_calls w w' = [(0, OpAdd); (0, OpCommit); (0, OpRefresh); (0, OpRollback)]%nat
    ∧ table w'
      = [{| row_id := 1; row_name := "widget"; row_description := "a small widget" |}]
    ∧ fst (fastapi.endpoint get_item_1 w')
      = inl {| status_code := 200;
               content := ItemContent
                 {| schemas.base := {| schemas.name := "widget";
                                       schemas.description := "a small widget" |};
                    schemas.id := 1 |} |}
    ∧ fst (fastapi.endpoint get_item_1 w')
      ≠ inl {| status_code := 404; content := Detail "Item not found" |}.
Proof. vm_compute. repeat split; done. Qed.

Lemma create_item_persistence_failure_witness :
  let w := fresh_world (failing OpCommit) ∅ in
  let e := OperationalError "connection lost" in
  (route (post widget) = PostItems widget
   ∧ widget !! "name" = Some (schemas.JString "widget")
   ∧ widget !! "description" = Some (schemas.JString "a small widget")
   ∧ create_failure w (length (sessions w)) = Some (OpCommit, e))
  ∧ let (r, w') := fastapi.endpoint (post widget) w in
    (length (sessions w), OpRollback) ∈ new_calls w w'
    ∧ status_code (fastapi.answer r) = 500
    ∧ (faults w (length (sessions w)) OpRollback = None →
       r = inl {| status_code := 500; content := Detail "Failed to create item" |})
    ∧ (OpCommit ≠ OpRefresh →
       table w' = table w
       ∧ ∀ request' item_id,
           route request' = GetItem item_id →
           (∀ row, row ∈ table w → row_id row ≠ item_id) →
           faults w' (length (sessions w')) OpQuery = None →
           fst (fastapi.endpoint request' w')
           = inl {| status_code := 404; content := Detail "Item not found" |}).
Proof.
  intros w e.
  assert (widget !! "name" = Some (schemas.JString "widget")) as Hn
    by (vm_compute; reflexivity).
  assert (widget !! "description" = Some (schemas.JString "a small widget")) as Hd
    by (vm_compute; reflexivity).
  split; [repeat split; assumption || reflexivity|].
  exact (create_item_persistence_failure w (post widget) widget
           "widget" "a small widget" OpCommit e eq_refl Hn Hd eq_refl).
Defined.

Lemma read_item_responses_witness :
  route get_item_1 = GetItem 1
  ∧ let db := length (sessions world_with_widget) in
    let r := fst (fastapi.endpoint get_item_1 world_with_widget) in
    (∀ row, faults world_with_widget db OpQuery = None →
            NoDup (row_id <$> table world_with_widget) →
            row ∈ table world_with_widget → row_id row = 1 →
            r = inl {| status_code := 200; content := ItemContent (item_of_row row) |})
    ∧ (faults world_with_widget db OpQuery = None →
       (∀ row, row ∈ table world_with_widget → row_id row ≠ 1) →
       r = inl {| status_code := 404; content := Detail "Item not found" |})
    ∧ (∀ e, faults world_with_widget db OpQuery = Some e →
            r = inl {| status_code := 500;
                       content := Detail "Failed to retrieve item" |}).
Proof.
  split; [reflexivity|].
  exact (read_item_responses world_with_widget get_item_1 1 eq_refl).
Defined.

(** The three answers of the get endpoint on concrete worlds. *)
Example get_item_200 :
  fst (fastapi.endpoint get_item_1 world_with_widget)
  = inl {| status_code := 200;
           content := ItemContent
             {| schemas.base := {| schemas.name := "widget";
                                   schemas.description := "a small widget" |};
                schemas.id := 1 |} |}.
Proof. vm_compute. reflexivity. Qed.

Example get_item_404 :
  fst (fastapi.endpoint get_item_1 (fresh_world no_faults ∅))
  = inl {| status_code := 404; content := Detail "Item not found" |}.
Proof. vm_compute. reflexivity. Qed.

Example get_item_500 :
  fst (fastapi.endpoint get_item_1 (fresh_world (failing OpQuery) ∅))
  = inl {| status_code := 500; content := Detail "Failed to retrieve item" |}.
Proof. vm_compute. reflexivity. Qed.

Lemma fresh_world_store_ok fl env : store_ok (fresh_world fl env).
Proof. split; constructor. Defined.

Lemma create_item_success_witness :
  let w := fresh_world no_faults ∅ in
  (route (post widget) = PostItems widget
   ∧ widget !! "name" = Some (schemas.JString "widget")
   ∧ widget !! "description" = Some (schemas.JString "a small widget")
   ∧ faults w (length (sessions w)) OpAdd = None
   ∧ faults w (length (sessions w)) OpCommit = None
   ∧ faults w (length (sessions w)) OpRefresh = None
   ∧ store_ok w)
  ∧ let (r, w') := fastapi.endpoint (post widget) w in
    r = inl {| status_code := 200;
               content := ItemContent
                 {| schemas.base := {| schemas.name := "widget";
                                       schemas.description := "a small widget" |};
                    schemas.id := next_id w |} |}
    ∧ (∀ row, row ∈ table w → row_id row ≠ next_id w)
    ∧ table w' = table w ++ [{| row_id := next_id w; row_name := "widget";
                                row_description := "a small widget" |}]
    ∧ store_ok w'.
Proof.
  intros w.
  assert (widget !! "name" = Some (schemas.JString "widget")) as Hn
    by (vm_compute; reflexivity).
  assert (widget !! "description" = Some (schemas.JString "a small widget")) as Hd
    by (vm_compute; reflexivity).
  split; [repeat split; (assumption || reflexivity || constructor)|].
  exact (create_item_success w (post widget) widget "widget" "a small widget"
           eq_refl Hn Hd eq_refl eq_refl eq_refl (fresh_world_store_ok _ _)).
Defined.

Lemma create_item_missing_field_witness :
  let w := fresh_world no_faults ∅ in
  (route (post nameless) = PostItems nameless
   ∧ (nameless !! "name" = None ∨ nameless !! "description" = None))
  ∧ let (r, w') := fastapi.endpoint (post nameless) w in
    (∃ errors,
        r = inl {| status_code := 422; content := DetailErrors errors |}
        ∧ ∀ field, field ∈ ["name"; "description"] →
            (nameless !! field = None ↔ missing field ∈ errors))
    ∧ new_calls w w' = []
    ∧ table w' = table w ∧ next_id w' = next_id w ∧ heap w' = heap w.
Proof.
  intros w.
  assert (nameless !! "name" = None) as Hn by (vm_compute; reflexivity).
  split; [split; [reflexivity | by left]|].
  exact (create_item_missing_field w (post nameless) nameless eq_refl (or_introl Hn)).
Defined.

(** The 422 body for a body without a name. *)
Example nameless_422 :
  fst (fastapi.endpoint (post nameless) (fresh_world no_faults ∅))
  = inl {| status_code := 422; content := DetailErrors [missing "name"] |}.
Proof. vm_compute. reflexivity. Qed.

Lemma request_counter_increment_witness :
  let w := fresh_world no_faults ∅ in
  let response :=
    {| status_code := 200;
       content := ItemContent
         {| schemas.base := {| schemas.name := "widget";
                               schemas.description := "a small widget" |};
            schemas.id := 1 |} |} in
  let w1 := snd (fastapi.endpoint (post widget) (entered w)) in
  fastapi.endpoint (post widget) (entered w) = (inl response, w1)
  ∧ let w' := snd (fastapi.app (post widget) w) in
    REQUEST_COUNT w' = REQUEST_COUNT w + 1
    ∧ fst (observability.metrics_app w')
      = inl {| status_code := 200;
               content := MetricsText (REQUEST_COUNT w + 1) (REQUEST_LATENCY w')
                            (IN_PROGRESS w') |}.
Proof.
  intros w response w1.
  assert (fastapi.endpoint (post widget) (entered w) = (inl response, w1)) as Hnext
    by (vm_compute; reflexivity).
  split; [exact Hnext|].
  exact (request_counter_increment w (post widget) response w1 Hnext).
Defined.

(** The counter as three requests go by: created, not found, rejected. *)
Example request_counter_three_requests :
  let w1 := snd (fastapi.app (post widget) (fresh_world no_faults ∅)) in
  let w2 := snd (fastapi.app get_item_1 (fresh_world no_faults ∅)) in
  let w3 := snd (fastapi.app (post nameless) w1) in
  REQUEST_COUNT w1 = 1 ∧ REQUEST_COUNT w2 = 1 ∧ REQUEST_COUNT w3 = 2.
Proof. vm_compute. done. Qed.

Lemma session_closed_on_exit_witness :
  let w := fresh_world (failing OpCommit) ∅ in
  ((∃ body, route (post widget) = PostItems body)
   ∨ (∃ item_id, route (post widget) = GetItem item_id))
  ∧ let w' := snd (fastapi.endpoint (post widget) w) in
    length (sessions w') = S (length (sessions w))
    ∧ ∃ s, sessions w' !! length (sessions w) = Some s ∧ is_closed s = true.
Proof.
  intros w.
  assert ((∃ body, route (post widget) = PostItems body)
          ∨ (∃ item_id, route (post widget) = GetItem item_id)) as Hroute
    by (left; exists widget; reflexivity).
  split; [exact Hroute|].
  exact (session_closed_on_exit w (post widget) Hroute).
Defined.

Lemma setup_logging_level_witness :
  let w := fresh_world no_faults {[ "LOG_LEVEL" := "debug" ]} in
  (environ w !! "LOG_LEVEL" = Some "debug"
   ∧ observability.nameToLevel (observability.upper "debug") = Some logging.DEBUG)
  ∧ let (r, w') := observability.setup_logging w in
    r = inl tt
    ∧ level (root_logger w') = logging.DEBUG
    ∧ handler_level <$> handlers (root_logger w') = [logging.DEBUG].
Proof.
  intros w.
  assert (environ w !! "LOG_LEVEL" = Some "debug") as Henv
    by (vm_compute; reflexivity).
  split; [split; [exact Henv | reflexivity]|].
  exact (proj2 (setup_logging_level w) "debug" logging.DEBUG Henv eq_refl).
Defined.

(** Unset, and set to something that is no level: INFO both times. *)
Example setup_logging_default :
  let (r, w') := observability.setup_logging (fresh_world no_faults ∅) in
  r = inl tt ∧ level (root_logger w') = 20
  ∧ handlers (root_logger w')
    = [{| handler_level := 20; handler_stream := stderr; json_format := true |}].
Proof. vm_compute. done. Qed.

Example setup_logging_unknown_name :
  let (r, w') := observability.setup_logging
                   (fresh_world no_faults {[ "LOG_LEVEL" := "verbose" ]}) in
  r = inl tt ∧ level (root_logger w') = 20.
Proof. vm_compute. done. Qed.

Lemma escaped_exception_metrics_witness :
  let w := fresh_world connection_gone ∅ in
  let e := SQLAlchemyError (OperationalError "connection lost") in
  let w1 := snd (fastapi.endpoint (post widget) (entered w)) in
  fastapi.endpoint (post widget) (entered w) = (inr e, w1)
  ∧ let (r, w') := observability.log_requests (post widget) fastapi.endpoint w in
    r = inr e
    ∧ REQUEST_COUNT w' = REQUEST_COUNT w
    ∧ REQUEST_LATENCY w' = REQUEST_LATENCY w
    ∧ IN_PROGRESS w' = IN_PROGRESS w + 1
    ∧ ∀ later, IN_PROGRESS w + 1 ≤ IN_PROGRESS (snd (serve_all later w')).
Proof.
  intros w e w1.
  assert (fastapi.endpoint (post widget) (entered w) = (inr e, w1)) as Hnext
    by (vm_compute; reflexivity).
  split; [exact Hnext|].
  exact (escaped_exception_metrics w (post widget) e w1 Hnext).
Defined.

(** The gauge after a request whose exception escaped and two requests
    that were answered: still one. *)
Example gauge_stays_up :
  let (escaped, w') :=
    serve_all [post widget; get_item_1; post nameless] (fresh_world connection_gone ∅) in
  escaped = 1%nat ∧ IN_PROGRESS w' = 1 ∧ REQUEST_COUNT w' = 2.
Proof. vm_compute. done. Qed.

End Runs.


(** * Further properties *)

(** ** The startup sequencer, for every behaviour of the database *)

Section StartupCases.
Import startup.

(** Among the next [n] calls there is a first one that is not refused with
    a connectivity error, or there is none. *)
Lemma first_stop (b : boot) (n : nat) :
  (∀ j, (j < n)%nat → unreachable_at b j)
  ∨ ∃ k, (k < n)%nat ∧ (∀ j, (j < k)%nat → unreachable_at b j)
         ∧ (create_tables_outcome b (create_tables_calls b + k) = None
            ∨ ∃ e, create_tables_outcome b (create_tables_calls b + k) = Some e
                   ∧ is_OperationalError e = false).
Proof.
  induction n as [|n IH].
  - left. intros j Hj. lia.
  - destruct IH as [Hall|(k & Hk & Hprior & Hstop)].
    + destruct (create_tables_outcome b (create_tables_calls b + n)) as [e|] eqn:Hn.
      * destruct (is_OperationalError e) eqn:He.
        -- left. intros j Hj. destruct (decide (j = n)) as [->|Hne].
           ++ by exists e.
           ++ apply Hall. lia.
        -- right. exists n. repeat split; [lia | done |]. right. by exists e.
      * right. exists n. repeat split; [lia | done |]. by left.
    + right. exists k. repeat split; [lia | done | done].
Qed.

(** The three ways [startup_event] can go. *)
Lemma startup_event_cases (b : boot) :
  (∃ k, (k < 5)%nat ∧ (∀ j, (j < k)%nat → unreachable_at b j)
        ∧ create_tables_outcome b (create_tables_calls b + k) = None
        ∧ startup_event b
          = (inl tt, advance b (k + 1)
               (retry_rounds k
                ++ [CreateTables; Print "Database tables created successfully"])))
  ∨ (∃ k e, (k < 5)%nat ∧ (∀ j, (j < k)%nat → unreachable_at b j)
        ∧ create_tables_outcome b (create_tables_calls b + k) = Some e
        ∧ is_OperationalError e = false
        ∧ startup_event b
          = (inr e, advance b (k + 1) (retry_rounds k ++ [CreateTables])))
  ∨ (∃ e, (∀ j, (j < 5)%nat → unreachable_at b j)
        ∧ create_tables_outcome b (create_tables_calls b + 4) = Some e
        ∧ startup_event b
          = (inr e, advance b (4 + 1)
               (retry_rounds 4
                ++ [CreateTables;
                    Print "Max retries reached. Could not connect to the database."]))).
Proof.
  destruct (first_stop b 5) as [Hall|(k & Hk & Hprior & [Hok|(e & He & Hop)])].
  - right. right. destruct (Hall 4%nat) as (e & He & Hop); [lia|].
    exists e. repeat split; [done | done |].
    rewrite (startup_event_at 4) by (lia || (intros; apply Hall; lia)).
    unfold mbind, M_bind, bind.
    rewrite (attempt_give_up _ _ e); [| by rewrite outcome_advance | done | done].
    by rewrite advance_advance.
  - left. exists k. repeat split; [done | done | done |].
    rewrite (startup_event_at k) by done.
    unfold mbind, M_bind, bind.
    rewrite attempt_success by (by rewrite outcome_advance).
    cbn [ret]. by rewrite advance_advance.
  - right. left. exists k, e. repeat split; [done | done | done | done |].
    rewrite (startup_event_at k) by done.
    unfold mbind, M_bind, bind.
    rewrite (attempt_other _ _ e); [| by rewrite outcome_advance | done].
    by rewrite advance_advance.
Qed.

Lemma trace_advance b n evs : trace (advance b n evs) = trace b ++ evs.
Proof. done. Qed.

(** X1.  Whatever the database does, [startup_event] calls [create_tables]
    at least once and at most five times, sleeps five seconds between two
    consecutive calls and at no other time (one sleep less than calls), and
    only adds to the record of what happened. *)
Theorem startup_event_bounds (b : boot) :
  let (r, b') := startup_event b in
  trace b' = trace b ++ new_events b b'
  ∧ (1 ≤ attempts (new_events b b') ≤ 5)%nat
  ∧ sleeps (new_events b b') = replicate (attempts (new_events b b') - 1) 5
  ∧ create_tables_calls b'
    = (create_tables_calls b + attempts (new_events b b'))%nat.
Proof.
  destruct (startup_event_cases b)
    as [(k & Hk & _ & _ & ->)|[(k & e & Hk & _ & _ & _ & ->)|(e & _ & _ & ->)]];
    rewrite new_events_advance, trace_advance, attempts_retry_rounds, sleeps_retry_rounds;
    cbn; rewrite ?app_nil_r;
    repeat split; try lia; f_equal; lia.
Qed.

(** X2.  Startup ends in [Ready] exactly when one of the first five calls
    of [create_tables] succeeds and every call before it was refused with a
    connectivity error. *)
Theorem startup_event_ready_iff (b : boot) :
  final_state (fst (startup_event b)) = Ready
  ↔ ∃ k, (k < 5)%nat
       ∧ (∀ j, (j < k)%nat → unreachable_at b j)
       ∧ create_tables_outcome b (create_tables_calls b + k) = None.
Proof.
  split.
  - intros Hready.
    destruct (startup_event_cases b)
      as [(k & Hk & Hprior & Hok & _)|[(k & e & _ & _ & _ & _ & Heq)|(e & _ & _ & Heq)]];
      [by exists k | by rewrite Heq in Hready..].
  - intros (k & Hk & Hprior & Hok).
    rewrite (startup_event_at k) by done.
    unfold mbind, M_bind, bind.
    by rewrite attempt_success by (by rewrite outcome_advance).
Qed.

(** X3.  When startup fails, the exception that leaves [startup_event] is
    the one the last call of [create_tables] raised: it is neither
    swallowed nor replaced. *)
Theorem startup_event_failure_is_last_error (b : boot) (e : exc) :
  final_state (fst (startup_event b)) = Failed e →
  let b' := snd (startup_event b) in
  (0 < attempts (new_events b b'))%nat
  ∧ create_tables_outcome b
      (create_tables_calls b + (attempts (new_events b b') - 1))
    = Some e.
Proof.
  intros Hfail.
  destruct (startup_event_cases b)
    as [(k & Hk & _ & _ & Heq)|[(k & e' & Hk & _ & He & _ & Heq)|(e' & _ & He & Heq)]];
    rewrite Heq in *; cbn in Hfail; [done | |];
    injection Hfail as <-; cbn [snd];
    rewrite new_events_advance, attempts_retry_rounds; cbn;
    (split; [lia|]); rewrite <- He; f_equal; lia.
Qed.

End StartupCases.

(** ** The create endpoint, path by path *)

Section CreatePaths.
Import schemas.

Lemma find_row_snoc_hit i t r :
  row_id r = i → ∃ r', find_row i (t ++ [r]) = Some r' ∧ row_id r' = i.
Proof.
  intros Hr. destruct (find_row i t) as [r'|] eqn:Hfind.
  - exists r'. split; [by apply find_row_snoc_Some|].
    by destruct (find_row_id _ _ _ Hfind).
  - exists r. split; [|done].
    rewrite (find_row_snoc_None _ _ _ Hfind). by rewrite (proj2 (Z.eqb_eq _ _) Hr).
Qed.

(** What a create request with a valid body does to the world. *)
Lemma post_valid_run (w : world) (request : Request)
    (body : gmap string json) (n d : string) :
  route request = PostItems body →
  body !! "name" = Some (JString n) →
  body !! "description" = Some (JString d) →
  let db := length (sessions w) in
  let (r, w') := fastapi.endpoint request w in
  match create_failure w db with
  | None => ∃ item, r = inl {| status_code := 200; content := ItemContent item |}
  | Some _ =>
      match faults w db OpRollback with
      | None => r = inl {| status_code := 500; content := Detail "Failed to create item" |}
      | Some e => r = inr (SQLAlchemyError e)
      end
  end
  ∧ new_calls w w' = (λ op, (db, op)) <$> create_calls (create_failure w db)
  ∧ faults w' = faults w
  ∧ ∃ r1 r2,
      output w'
      = (output w
         ++ logging.handle (logging.with_default_handler (root_logger w)) r1)
        ++ logging.handle
             (logging.with_default_handler
                (logging.with_default_handler (root_logger w))) r2
      ∧ levelno r1 = logging.INFO
      ∧ levelno r2 = match create_failure w db with
                     | None => logging.INFO
                     | Some _ => logging.ERROR
                     end.
Proof.
  intros Hr Hn Hd.
  unfold fastapi.endpoint, fastapi.router, fastapi.post_items.
  rewrite Hr, (validate_ItemCreate_valid _ _ _ Hn Hd).
  destruct w; unfold create_failure, new_calls in *; cbn in *.
  destruct (find_row_snoc_hit next_id0 table0
              {| row_id := next_id0; row_name := n; row_description := d |} eq_refl)
    as (r' & Hfind & _).
  destruct (faults0 _ OpAdd) eqn:Ha;
    [|destruct (faults0 _ OpCommit) eqn:Hc;
      [|destruct (faults0 _ OpRefresh) eqn:Hf]];
    destruct (faults0 (length sessions0) OpRollback) eqn:Hb;
    (exec by rewrite ?Ha, ?Hc, ?Hf, ?Hb, ?Hfind);
    rewrite <- ?app_assoc, drop_app_length;
    (split; [by eauto|]); (split; [done|]); (split; [done|]);
    do 2 eexists; (split; [rewrite app_assoc; reflexivity|]); split; reflexivity.
Qed.

(** X4.  A create request is always answered with 200, 422 or 500, with one
    exception: when a database call and then the rollback fail, the error
    of the rollback leaves the endpoint unhandled.  422 is the answer
    exactly to the bodies that do not validate. *)
Theorem create_item_outcomes (w : world) (request : Request)
    (body : gmap string json) :
  route request = PostItems body →
  let r := fst (fastapi.endpoint request w) in
  let db := length (sessions w) in
  match validate_ItemCreate body with
  | inr errors => r = inl {| status_code := 422; content := DetailErrors errors |}
  | inl _ =>
      (∃ response, r = inl response
         ∧ (status_code response = 200 ∨ status_code response = 500))
      ∨ (∃ e, r = inr (SQLAlchemyError e)
           ∧ faults w db OpRollback = Some e
           ∧ is_Some (create_failure w db))
  end.
Proof.
  intros Hr. cbn.
  destruct (validate_ItemCreate body) as [item|errors] eqn:Hv.
  - assert (body !! "name" = Some (JString (name item))
            ∧ body !! "description" = Some (JString (description item))) as [Hn Hd].
    { unfold validate_ItemCreate, validate_str in Hv.
      destruct (body !! "name") as [[]|]; destruct (body !! "description") as [[]|];
        try discriminate. by injection Hv as <-. }
    pose proof (post_valid_run w request body _ _ Hr Hn Hd) as H. cbn in H.
    destruct (fastapi.endpoint request w) as [r w']. cbn.
    destruct H as (Hout & _).
    destruct (create_failure w (length (sessions w))) as [[op e]|].
    + destruct (faults w (length (sessions w)) OpRollback) as [e'|] eqn:Hb.
      * right. exists e'. by rewrite Hout.
      * left. eexists. split; [done|]. by right.
    + destruct Hout as (it & ->). left. eexists. split; [done|]. by left.
  - pose proof (post_items_invalid w request body errors Hr Hv) as H.
    destruct (fastapi.endpoint request w) as [r w']. by destruct H as (-> & _).
Qed.

(** X5.  In a create request with a valid body each session method is
    called at most once and in the order of the source: add, commit,
    refresh.  A call that fails ends the sequence, and rollback is called
    then and only then. *)
Theorem create_item_session_calls (w : world) (request : Request)
    (body : gmap string json) (n d : string) :
  route request = PostItems body →
  body !! "name" = Some (JString n) →
  body !! "description" = Some (JString d) →
  let db := length (sessions w) in
  let w' := snd (fastapi.endpoint request w) in
  new_calls w w' = (λ op, (db, op)) <$> create_calls (create_failure w db)
  ∧ (OpRollback ∈ create_calls (create_failure w db)
     ↔ is_Some (create_failure w db)).
Proof.
  intros Hr Hn Hd. cbn.
  pose proof (post_valid_run w request body n d Hr Hn Hd) as H. cbn in H.
  destruct (fastapi.endpoint request w) as [r w']. cbn.
  destruct H as (_ & Hcalls & _). split; [done|].
  destruct (create_failure w (length (sessions w))) as [[[] e]|]; cbn;
    rewrite ?elem_of_cons, ?elem_of_nil, ?is_Some_alt;
    intuition (discriminate || done).
Qed.

End CreatePaths.

(** ** Round trips through the table *)

Section RoundTrip.
Import schemas.

(** The world after a create request that went through. *)
Lemma post_valid_success (w : world) (request : Request)
    (body : gmap string json) (n d : string) :
  route request = PostItems body →
  body !! "name" = Some (JString n) →
  body !! "description" = Some (JString d) →
  faults w (length (sessions w)) OpAdd = None →
  faults w (length (sessions w)) OpCommit = None →
  faults w (length (sessions w)) OpRefresh = None →
  find_row (next_id w) (table w) = None →
  let (r, w') := fastapi.endpoint request w in
  r = inl {| status_code := 200;
             content := ItemContent {| base := {| name := n; description := d |};
                                       id := next_id w |} |}
  ∧ table w' = table w ++ [{| row_id := next_id w; row_name := n;
                              row_description := d |}]
  ∧ next_id w' = Z.succ (next_id w)
  ∧ faults w' = faults w
  ∧ sessions w' = sessions w ++ [closed_session].
Proof.
  intros Hr Hn Hd Ha Hc Hf Hfresh.
  unfold fastapi.endpoint, fastapi.router, fastapi.post_items.
  rewrite Hr, (validate_ItemCreate_valid _ _ _ Hn Hd).
  destruct w; cbn in *.
  exec by rewrite ?Ha, ?Hc, ?Hf.
  rewrite (find_row_snoc_None _ _ _ Hfresh). cbn. rewrite Z.eqb_refl.
  by exec.
Qed.

Lemma find_row_snoc_new i t n d :
  find_row i t = None →
  find_row i (t ++ [{| row_id := i; row_name := n; row_description := d |}])
  = Some {| row_id := i; row_name := n; row_description := d |}.
Proof.
  intros H. rewrite (find_row_snoc_None _ _ _ H). cbn. by rewrite Z.eqb_refl.
Qed.

(** X6.  What a create request stored can be read back: after a create
    that went through, a get for the id in its response is answered with
    200 and the same id, name and description (unless the lookup itself
    fails). *)
Theorem create_then_get (w : world) (request : Request)
    (body : gmap string json) (n d : string) :
  route request = PostItems body →
  body !! "name" = Some (JString n) →
  body !! "description" = Some (JString d) →
  faults w (length (sessions w)) OpAdd = None →
  faults w (length (sessions w)) OpCommit = None →
  faults w (length (sessions w)) OpRefresh = None →
  store_ok w →
  let (r, w') := fastapi.endpoint request w in
  ∀ request',
    route request' = GetItem (next_id w) →
    faults w' (length (sessions w')) OpQuery = None →
    fst (fastapi.endpoint request' w') = r.
Proof.
  intros Hr Hn Hd Ha Hc Hf [_ Hlt].
  pose proof (find_row_fresh _ _ Hlt) as Hfresh.
  pose proof (post_valid_success w request body n d Hr Hn Hd Ha Hc Hf Hfresh) as H.
  destruct (fastapi.endpoint request w) as [r w'].
  destruct H as (-> & Ht & _ & _ & _).
  intros request' Hr' Hq.
  pose proof (get_item_found w' request' (next_id w)
                {| row_id := next_id w; row_name := n; row_description := d |}
                Hr' Hq) as Hget.
  rewrite Ht in Hget. specialize (Hget (find_row_snoc_new _ _ _ _ Hfresh)).
  destruct (fastapi.endpoint request' w') as [r' w'']. by destruct Hget as (-> & _).
Qed.



(** X8.  A get request never writes: whatever the database does, it is
    answered (with 200, 404 or 500; no exception leaves the endpoint), it
    makes the one query on its session and no other call, and the table and
    the id sequence are as before. *)
Theorem read_item_read_only (w : world) (request : Request) (item_id : Z) :
  route request = GetItem item_id →
  let (r, w') := fastapi.endpoint request w in
  (∃ response, r = inl response ∧ status_code response ∈ [200; 404; 500])
  ∧ new_calls w w' = [(length (sessions w), OpQuery)]
  ∧ table w' = table w ∧ next_id w' = next_id w.
Proof.
  intros Hr. unfold fastapi.endpoint, fastapi.router. rewrite Hr.
  destruct w; unfold new_calls; cbn.
  destruct (faults0 (length sessions0) OpQuery) eqn:Hq;
    [|destruct (find_row item_id table0) eqn:Hrow];
    (exec by rewrite ?Hq, ?Hrow);
    rewrite drop_app_length;
    (split; [eexists; split; [done|]; set_solver | done]).
Qed.

End RoundTrip.

(** ** What a sequence of requests leaves behind *)

Section Sequences.

(** A property that every request keeps is kept by every sequence. *)
Lemma serve_all_maintains (P : world → Prop) :
  (∀ request w, P w → P (snd (fastapi.app request w))) →
  ∀ requests w, P w → P (snd (serve_all requests w)).
Proof.
  intros Hstep requests. induction requests as [|request rest IH]; intros w Hw; [done|].
  cbn. specialize (IH _ (Hstep request w Hw)).
  by destruct (serve_all rest (snd (fastapi.app request w))).
Qed.

(** The middleware leaves sessions, table and id sequence to the handler. *)
Lemma log_requests_store request call_next w :
  let w1 := snd (call_next request (entered w)) in
  let w' := snd (observability.log_requests request call_next w) in
  sessions w' = sessions w1 ∧ table w' = table w1 ∧ next_id w' = next_id w1.
Proof.
  unfold observability.log_requests, observability.time_time,
    observability.IN_PROGRESS_inc, observability.REQUEST_COUNT_inc,
    observability.REQUEST_LATENCY_observe, observability.IN_PROGRESS_dec,
    observability.client_host, logging.Logger_log, entered.
  destruct w. run.
  match goal with |- context [call_next request ?w0] =>
    destruct (call_next request w0) as [[response|e] w1] end; [|done].
  by destruct (client request).
Qed.

Lemma grown_from_frame (w0 : world) {A} (m : M world A) :
  (∀ w, table (snd (m w)) = table w ∧ next_id (snd (m w)) = next_id w) →
  maintains (grown_from w0) m.
Proof.
  intros H w Hw. destruct (H w) as [Ht Hn]. unfold grown_from. by rewrite Ht, Hn.
Qed.

Lemma grown_from_insert (w0 : world) (obj : nat) :
  maintains (grown_from w0) (session.insert obj).
Proof.
  intros w [Ht Hn]. unfold session.insert, deref, grown_from. destruct w.
  run. destruct (heap0 !! obj) as [o|]; cbn; [|done].
  destruct (models.id o); cbn in *; [done|].
  split; [by apply prefix_app_r | lia].
Qed.

Ltac grow_step w0 :=
  first
    [ apply grown_from_insert
    | apply maintains_bind; [|intros ?]
    | apply maintains_try_except; [|intros ?]
    | apply maintains_try_finally
    | apply maintains_for_each; intros ?
    | apply grown_from_frame; intros ?; by cbn
    | match goal with
      | |- maintains _ (match ?x with _ => _ end) => destruct x
      end ].

Lemma grown_from_endpoint (w0 : world) (request : Request) :
  maintains (grown_from w0) (fastapi.endpoint request).
Proof.
  unfold fastapi.endpoint, fastapi.router, fastapi.post_items, fastapi.get_item,
    fastapi.serialize_Item, main.validation_exception_handler, main.get_db,
    main.create_item, main.read_item,
    session.add, session.commit, session.refresh, session.rollback,
    session.query_first, session.close, session.call, session.pending,
    session.set_pending, deref, observability.metrics_app,
    logging.info, logging.error, logging.warning, logging.basicConfig,
    logging.Logger_log.
  repeat grow_step w0.
Qed.

Lemma grown_from_app (w0 : world) (request : Request) (w : world) :
  grown_from w0 w → grown_from w0 (snd (fastapi.app request w)).
Proof.
  intros Hw. rewrite app_world.
  destruct (log_requests_store request fastapi.endpoint w) as (_ & Ht & Hn).
  unfold grown_from. rewrite Ht, Hn.
  by apply (grown_from_endpoint w0 request (entered w)).
Qed.

(** X9.  No request updates or deletes: after any sequence of requests the
    table still begins with the rows it had, unchanged and in their order,
    and the id sequence has not gone back. *)
Theorem table_append_only (requests : list Request) (w : world) :
  let w' := snd (serve_all requests w) in
  table w `prefix_of` table w' ∧ next_id w ≤ next_id w'.
Proof.
  apply (serve_all_maintains (grown_from w)).
  - intros request w1. apply grown_from_app.
  - split; [done | lia].
Qed.

Lemma grown_from_serve_all_aux (requests : list Request) (w : world) :
  grown_from w (snd (serve_all requests w)).
Proof.
  apply (serve_all_maintains (grown_from w)).
  - intros request w1. apply grown_from_app.
  - split; [done | lia].
Qed.

Lemma find_row_app_Some i t t' r :
  find_row i t = Some r → find_row i (t ++ t') = Some r.
Proof.
  unfold find_row. induction t as [|a t IH]; cbn; [done|].
  destruct (row_id a =? i); [done | apply IH].
Qed.

(** X10.  An item that is stored stays readable: whatever requests follow,
    a get for its id is answered with 200 and the same name and description
    (unless the lookup itself fails). *)
Theorem stored_item_stays (requests : list Request) (w : world) (row : Row) :
  NoDup (row_id <$> table w) →
  row ∈ table w →
  let w' := snd (serve_all requests w) in
  ∀ request,
    route request = GetItem (row_id row) →
    faults w' (length (sessions w')) OpQuery = None →
    fst (fastapi.endpoint request w')
    = inl {| status_code := 200; content := ItemContent (item_of_row row) |}.
Proof.
  intros Hnd Hin w' request Hr Hq.
  destruct (grown_from_serve_all_aux requests w) as [[rest Ht] _].
  pose proof (get_item_found w' request (row_id row) row Hr Hq) as Hget.
  subst w'. rewrite Ht in Hget.
  specialize (Hget (find_row_app_Some _ _ _ _ (find_row_unique _ _ Hnd Hin))).
  destruct (fastapi.endpoint request (snd (serve_all requests w))) as [r w''].
  by destruct Hget as (-> & _).
Qed.

(** X11.  Ids stay unique: the invariant of the table (unique ids, all
    below the next id of the sequence) survives every sequence of
    requests, whatever fails on the way. *)
Theorem store_ok_serve_all (requests : list Request) (w : world) :
  store_ok w → store_ok (snd (serve_all requests w)).
Proof. apply serve_all_maintains. intros request w1. apply store_ok_app. Qed.

End Sequences.

(** ** Sessions across requests *)

Section SessionsExact.

Ltac take_step :=
  first
    [ apply preserves_bind; [|intros ?]
    | apply preserves_try_except; [|intros ?]
    | apply preserves_try_finally
    | apply preserves_for_each; intros ?
    | apply preserves_ret
    | apply preserves_raise
    | apply preserves_get
    | apply preserves_modify; intros ?; cbn; by rewrite ?take_alter_ge by lia
    | match goal with
      | |- preserves _ (match ?x with _ => _ end) => destruct x
      end
    | by intros ? ].

Ltac take_frame :=
  unfold fastapi.serialize_Item, main.create_item, main.read_item,
    session.add, session.commit, session.refresh, session.rollback,
    session.query_first, session.call, session.pending,
    session.set_pending, session.insert, deref,
    logging.info, logging.error, logging.warning, logging.basicConfig,
    logging.Logger_log;
  repeat take_step.

(** The handlers touch no session below their own. *)
Lemma create_item_take item db :
  preserves (λ w, take db (sessions w)) (main.create_item item db).
Proof. take_frame. Qed.

Lemma read_item_take item_id db :
  preserves (λ w, take db (sessions w)) (main.read_item item_id db).
Proof. take_frame. Qed.

Lemma serialize_Item_take obj db :
  preserves (λ w, take db (sessions w)) (fastapi.serialize_Item obj).
Proof. take_frame. Qed.

Lemma get_db_sessions {A} (use : nat → M world A) (w : world) :
  (∀ db, preserves (λ w, length (sessions w)) (use db)) →
  (∀ db, preserves (λ w, take db (sessions w)) (use db)) →
  sessions (snd (main.get_db use w)) = sessions w ++ [closed_session].
Proof.
  intros Hlen Htake. unfold main.get_db, database.SessionLocal, session.close.
  run. specialize (Hlen (length (sessions w))). specialize (Htake (length (sessions w))).
  match goal with |- context [use ?db ?w1] =>
    specialize (Hlen w1); specialize (Htake w1); destruct (use db w1) as [r w2] end.
  cbn in *. rewrite length_app in Hlen. cbn in Hlen.
  rewrite take_app_length in Htake.
  rewrite <- (take_drop (length (sessions w)) (sessions w2)), Htake.
  destruct (drop (length (sessions w)) (sessions w2)) as [|s [|s' rest]] eqn:Hdrop.
  - apply (f_equal length) in Hdrop. rewrite length_drop in Hdrop. cbn in Hdrop. lia.
  - by rewrite alter_snoc.
  - apply (f_equal length) in Hdrop. rewrite length_drop in Hdrop. cbn in Hdrop. lia.
Qed.

Lemma endpoint_sessions (request : Request) (w : world) :
  sessions (snd (fastapi.endpoint request w))
  = sessions w ++ (if opens_session (route request) then [closed_session] else []).
Proof.
  assert (sessions (snd (fastapi.router request w))
          = sessions w ++ (if opens_session (route request) then [closed_session] else []))
    as Hrouter.
  { unfold fastapi.router. destruct (route request) as [body|item_id| |m]; cbn.
    - apply get_db_sessions; intros db; destruct (schemas.validate_ItemCreate body).
      + apply preserves_bind; [apply create_item_sessions|].
        intros obj. apply serialize_Item_sessions.
      + apply preserves_raise.
      + apply preserves_bind; [apply create_item_take|].
        intros obj. apply serialize_Item_take.
      + apply preserves_raise.
    - apply get_db_sessions; intros db.
      + apply preserves_bind; [apply read_item_sessions|].
        intros obj. apply serialize_Item_sessions.
      + apply preserves_bind; [apply read_item_take|].
        intros obj. apply serialize_Item_take.
    - by rewrite app_nil_r.
    - by rewrite app_nil_r. }
  unfold fastapi.endpoint, try_except.
  destruct (fastapi.router request w) as [[r|e] w1]; cbn in *; [done|].
  by destruct e.
Qed.

(** X12.  Every request to the create or get endpoint opens one session and
    leaves it closed, and no request touches a session that was there
    before: after any sequence of requests the sessions are the earlier
    ones, unchanged, followed by one closed session per such request. *)
Theorem sessions_after_requests (requests : list Request) (w : world) :
  sessions (snd (serve_all requests w))
  = sessions w
    ++ replicate (length (List.filter (λ request, opens_session (route request)) requests))
         closed_session.
Proof.
  revert w. induction requests as [|request rest IH]; intros w; cbn.
  - by rewrite app_nil_r.
  - specialize (IH (snd (fastapi.app request w))).
    destruct (serve_all rest (snd (fastapi.app request w))) as [k w']. cbn in *.
    rewrite IH, app_world.
    destruct (log_requests_store request fastapi.endpoint w) as (-> & _).
    rewrite endpoint_sessions. cbn.
    destruct (opens_session (route request)); cbn.
    + by rewrite <- app_assoc.
    + by rewrite app_nil_r.
Qed.

End SessionsExact.

(** ** The middleware, in full *)

Section MiddlewareExact.
Import observability.

(** [log_requests] around a handler that returns, for a known peer. *)
Lemma log_requests_known_client request call_next w response w1 host :
  client request = Some host →
  call_next request (entered w) = (inl response, w1) →
  let duration := time_source w1 (time_calls w1) - time_source w (time_calls w) in
  let (r, w') := log_requests request call_next w in
  r = inl response
  ∧ output w'
    = output w1 ++ logging.handle (root_logger w1) (request_line request response host duration)
  ∧ REQUEST_LATENCY w' = REQUEST_LATENCY w1 ++ [duration]
  ∧ time_calls w' = S (time_calls w1).
Proof.
  intros Hclient Hnext.
  unfold log_requests, time_time, IN_PROGRESS_inc, REQUEST_COUNT_inc,
    REQUEST_LATENCY_observe, IN_PROGRESS_dec, client_host, logging.Logger_log,
    request_line.
  destruct w. unfold entered in Hnext. record_form Hnext.
  run. rewrite Hnext, Hclient. by run.
Qed.

(** [log_requests] around a handler that returns, for an unknown peer. *)
Lemma log_requests_unknown_client request call_next w response w1 :
  client request = None →
  call_next request (entered w) = (inl response, w1) →
  let (r, w') := log_requests request call_next w in
  r = inr (AttributeError "'NoneType' object has no attribute 'host'")
  ∧ output w' = output w1
  ∧ table w' = table w1
  ∧ REQUEST_COUNT w' = REQUEST_COUNT w1 + 1
  ∧ IN_PROGRESS w' = IN_PROGRESS w1 - 1.
Proof.
  intros Hclient Hnext.
  unfold log_requests, time_time, IN_PROGRESS_inc, REQUEST_COUNT_inc,
    REQUEST_LATENCY_observe, IN_PROGRESS_dec, client_host, logging.Logger_log.
  destruct w. unfold entered in Hnext. record_form Hnext.
  run. rewrite Hnext, Hclient. by run.
Qed.

Lemma endpoint_time_calls request : preserves time_calls (fastapi.endpoint request).
Proof. unfold main.get_db. frame. Qed.

Lemma endpoint_time_source request : preserves time_source (fastapi.endpoint request).
Proof. unfold main.get_db. frame. Qed.

(** X13.  For a request whose handler returns, the middleware reads the
    clock exactly twice, once before and once after the handler, and
    records their difference as the one new latency observation. *)
Theorem request_latency_observation (w : world) (request : Request)
    (response : Response) (w1 : world) :
  fastapi.endpoint request (entered w) = (inl response, w1) →
  let w' := snd (fastapi.app request w) in
  REQUEST_LATENCY w'
  = REQUEST_LATENCY w ++ [time_source w (S (time_calls w)) - time_source w (time_calls w)]
  ∧ time_calls w' = S (S (time_calls w)).
Proof.
  intros Hnext. cbn. rewrite app_world.
  pose proof (endpoint_time_calls request (entered w)) as Hcalls.
  pose proof (endpoint_time_source request (entered w)) as Hsource.
  pose proof (endpoint_REQUEST_LATENCY request (entered w)) as Hlat.
  rewrite Hnext in Hcalls, Hsource, Hlat. cbn in Hcalls, Hsource, Hlat.
  destruct (client request) as [host|] eqn:Hclient.
  - pose proof (log_requests_known_client _ _ _ _ _ host Hclient Hnext) as H.
    cbn in H. destruct (log_requests request fastapi.endpoint w) as [r w'].
    destruct H as (_ & _ & Hl & Ht). cbn [snd].
    by rewrite Hl, Ht, Hcalls, Hsource, Hlat.
  - clear Hclient.
    unfold log_requests, time_time, IN_PROGRESS_inc, REQUEST_COUNT_inc,
      REQUEST_LATENCY_observe, IN_PROGRESS_dec, client_host, logging.Logger_log.
    destruct w. unfold entered in Hnext. record_form Hnext.
    run. rewrite Hnext. cbn in *.
    destruct (client request); cbn; by rewrite Hcalls, Hsource, Hlat.
Qed.

(** X14.  An unknown peer costs the response: when [request.client] is
    [None], the middleware fails on [request.client.host] after the handler
    has returned.  The client gets a plain 500 instead of the handler's
    response, although the handler's work stands (the table is as the
    handler left it), the request has been counted and the gauge is back;
    no request line is logged. *)
Theorem request_without_client (w : world) (request : Request)
    (response : Response) (w1 : world) :
  client request = None →
  fastapi.endpoint request (entered w) = (inl response, w1) →
  let (r, w') := fastapi.app request w in
  r = {| status_code := 500; content := PlainText "Internal Server Error" |}
  ∧ table w' = table w1
  ∧ output w' = output w1
  ∧ REQUEST_COUNT w' = REQUEST_COUNT w + 1
  ∧ IN_PROGRESS w' = IN_PROGRESS w.
Proof.
  intros Hclient Hnext.
  pose proof (log_requests_unknown_client _ _ _ _ _ Hclient Hnext) as H.
  pose proof (endpoint_REQUEST_COUNT request (entered w)) as Hc.
  pose proof (endpoint_IN_PROGRESS request (entered w)) as Hg.
  rewrite Hnext in Hc, Hg. cbn in Hc, Hg.
  unfold fastapi.app, fastapi.server_error.
  destruct (log_requests request fastapi.endpoint w) as [r w'].
  destruct H as (-> & Hout & Ht & Hcount & Hgauge). cbn.
  repeat split; try done; lia.
Qed.

(** X15.  For a known peer the middleware is transparent: the client gets
    the handler's response as it is, and the logger is handed exactly one
    record for the request, after everything the handler logged, with the
    method, URL, status code, peer and duration of the request. *)
Theorem request_with_client (w : world) (request : Request)
    (response : Response) (w1 : world) (host : string) :
  client request = Some host →
  fastapi.endpoint request (entered w) = (inl response, w1) →
  let (r, w') := fastapi.app request w in
  r = response
  ∧ output w'
    = output w1
      ++ logging.handle (root_logger w1)
           (request_line request response host
              (time_source w (S (time_calls w)) - time_source w (time_calls w))).
Proof.
  intros Hclient Hnext.
  pose proof (log_requests_known_client _ _ _ _ _ host Hclient Hnext) as H.
  pose proof (endpoint_time_calls request (entered w)) as Hcalls.
  pose proof (endpoint_time_source request (entered w)) as Hsource.
  rewrite Hnext in Hcalls, Hsource. cbn in Hcalls, Hsource, H.
  unfold fastapi.app, fastapi.server_error.
  destruct (log_requests request fastapi.endpoint w) as [r w'].
  destruct H as (-> & -> & _). cbn. by rewrite Hcalls, Hsource.
Qed.

Lemma app_REQUEST_COUNT request w :
  REQUEST_COUNT (snd (fastapi.app request w))
  = REQUEST_COUNT w
    + match fst (fastapi.endpoint request (entered w)) with
      | inl _ => 1
      | inr _ => 0
      end.
Proof.
  rewrite app_world.
  pose proof (endpoint_REQUEST_COUNT request (entered w)) as Hframe.
  destruct (fastapi.endpoint request (entered w)) as [[response|e] w1] eqn:Hnext;
    cbn in *.
  - destruct (log_requests_returns _ _ _ _ _ Hnext) as (-> & _).
    by rewrite Hframe.
  - rewrite (log_requests_raises _ _ _ _ _ Hnext). cbn. lia.
Qed.

(** X16.  Every request shows up in exactly one of two places: over any
    sequence of requests, the rise of the request counter and the rise of
    the in-progress gauge add up to the number of requests.  The counter
    has the requests whose handler returned, the gauge keeps those whose
    exception escaped. *)
Theorem requests_accounted_for (requests : list Request) (w : world) :
  let (escaped, w') := serve_all requests w in
  (escaped ≤ length requests)%nat
  ∧ REQUEST_COUNT w' = REQUEST_COUNT w + Z.of_nat (length requests - escaped)
  ∧ IN_PROGRESS w' = IN_PROGRESS w + Z.of_nat escaped.
Proof.
  revert w. induction requests as [|request rest IH]; intros w; cbn.
  - repeat split; lia.
  - specialize (IH (snd (fastapi.app request w))).
    destruct (serve_all rest (snd (fastapi.app request w))) as [k w'].
    destruct IH as (Hk & Hcount & Hgauge).
    rewrite Hcount, Hgauge, app_REQUEST_COUNT, app_IN_PROGRESS.
    destruct (fst (fastapi.endpoint request (entered w))); repeat split; lia.
Qed.

(** X17.  A scrape of the metrics endpoint shows the request counter
    without the scrape itself and the gauge with it: the body is produced
    inside the middleware, after the gauge went up and before the counter
    does. *)
Theorem metrics_scrape (w : world) (request : Request) (host : string) :
  route request = GetMetrics →
  client request = Some host →
  let (r, w') := fastapi.app request w in
  r = {| status_code := 200;
         content := MetricsText (REQUEST_COUNT w) (REQUEST_LATENCY w)
                      (IN_PROGRESS w + 1) |}
  ∧ REQUEST_COUNT w' = REQUEST_COUNT w + 1
  ∧ IN_PROGRESS w' = IN_PROGRESS w.
Proof.
  intros Hr Hclient.
  assert (fastapi.endpoint request (entered w)
          = (inl {| status_code := 200;
                    content := MetricsText (REQUEST_COUNT w) (REQUEST_LATENCY w)
                                 (IN_PROGRESS w + 1) |}, entered w)) as Hnext.
  { unfold fastapi.endpoint, fastapi.router. by rewrite Hr. }
  pose proof (log_requests_known_client _ _ _ _ _ host Hclient Hnext) as H.
  destruct (log_requests_returns _ _ _ _ _ Hnext) as (Hcount & Hgauge & _).
  rewrite <- app_world in Hcount, Hgauge.
  unfold fastapi.app, fastapi.server_error in *.
  destruct (log_requests request fastapi.endpoint w) as [r w'].
  destruct H as (-> & _). cbn in *. repeat split; [done | lia].
Qed.

End MiddlewareExact.

(** ** Logging set-up, in full *)

Section LoggingExact.
Import observability.

(** The level attribute [LOG_LEVEL] selects. *)
#[local] Abbreviation selected w :=
  (getattr_logging (upper (default "INFO" (environ w !! "LOG_LEVEL")))
     (PyInt logging.INFO)).

(** The two ways [setup_logging] can go, by what [LOG_LEVEL] resolves to. *)
Lemma setup_logging_cases (w : world) :
  match selected w with
  | PyInt l =>
      setup_logging w
      = (inl tt,
         set_root_logger (λ _,
           {| handlers := [{| handler_level := l; handler_stream := stderr;
                              json_format := true |}];
              level := l; propagate := false |}) w)
  | _ =>
      ∃ e, (∃ m, e = ValueError m ∨ e = TypeError m)
        ∧ setup_logging w
          = (inr e,
             set_root_logger (λ lg,
               {| handlers := []; level := level lg; propagate := propagate lg |}) w)
  end.
Proof.
  unfold setup_logging, getenv, checkLevel. destruct w. run.
  destruct (getattr_logging _ _) as [l|s|] eqn:Hattr.
  - by run.
  - unfold getattr_logging in Hattr.
    destruct (nameToLevel (upper _)); [done|].
    destruct (String.eqb _ "BASIC_FORMAT"); [|by destruct (String.eqb _ "_STYLES")].
    injection Hattr as <-. eexists. split; [|by run]. eauto.
  - eexists. split; [|by run]. eauto.
Qed.

(** X18.  When [setup_logging] fails on the value of [LOG_LEVEL], it has
    already removed the handlers of the root logger and has not yet added
    its own: the process is left with a root logger without handlers, at
    the level it had, and the exception is the [ValueError] or [TypeError]
    of [setLevel]. *)
Theorem setup_logging_failure (w : world) (e : exc) :
  fst (setup_logging w) = inr e →
  let w' := snd (setup_logging w) in
  handlers (root_logger w') = []
  ∧ level (root_logger w') = level (root_logger w)
  ∧ ∃ m, e = ValueError m ∨ e = TypeError m.
Proof.
  intros Hfail. pose proof (setup_logging_cases w) as H.
  destruct (selected w) as [l|s|];
    [by rewrite H in Hfail | |];
    destruct H as (e' & He' & Heq); rewrite Heq in *; cbn in *;
    by injection Hfail as <-.
Qed.

(** X19.  [setup_logging] can be run again: a run that succeeds leaves the
    root logger with exactly one handler, a JSON handler at the level of
    the logger, however many handlers there were; a second run succeeds as
    well and leaves the same logger. *)
Theorem setup_logging_again (w w1 : world) :
  setup_logging w = (inl tt, w1) →
  (∃ h, handlers (root_logger w1) = [h]
        ∧ json_format h = true
        ∧ handler_level h = level (root_logger w1))
  ∧ fst (setup_logging w1) = inl tt
  ∧ root_logger (snd (setup_logging w1)) = root_logger w1.
Proof.
  intros Hrun. pose proof (setup_logging_cases w) as H.
  destruct (selected w) as [l|s|] eqn:Hattr;
    [| destruct H as (e & _ & Heq); by rewrite Heq in Hrun..].
  rewrite H in Hrun. injection Hrun as <-. split; [by eexists|].
  pose proof (setup_logging_cases
                (set_root_logger (λ _,
                   {| handlers := [{| handler_level := l; handler_stream := stderr;
                                      json_format := true |}];
                      level := l; propagate := false |}) w)) as H'.
  cbn in H'. rewrite Hattr in H'. by rewrite H'.
Qed.



End LoggingExact.

(** ** What the handlers log *)

Section HandlerLogs.
Import schemas.

(** Destruct a logger that writes from INFO upwards, and collect what
    its level tests give for the three levels the handlers use. *)
Ltac open_logger H :=
  match type of H with
  | writes_from_info ?lg =>
      destruct lg as [hs l p]; destruct H as ([hl st jf] & Hh & Hhl & Hl);
      cbn in Hh, Hhl, Hl; subst hs;
      unfold logging.INFO in Hhl, Hl;
      assert ((20 <? l) = false ∧ (30 <? l) = false ∧ (40 <? l) = false
              ∧ (hl <=? 20) = true ∧ (hl <=? 30) = true ∧ (hl <=? 40) = true)
        as (Hl20 & Hl30 & Hl40 & Hh20 & Hh30 & Hh40)
        by (rewrite !Z.ltb_ge, !Z.leb_le; lia)
  end.

Ltac exec_logged known :=
  repeat progress
    (unfold_ops; unfold logging.with_default_handler, logging.handle,
       logging.INFO, logging.WARNING, logging.ERROR;
     run; autorewrite with world; known).

(** X22.  What a get request logs, when the logger writes from INFO
    upwards: two INFO records when the item is found; an INFO, a WARNING
    and then an ERROR record when it is not (the 404 raised inside the
    [try] is caught and logged again by the first [except] clause); an INFO
    and an ERROR record when the lookup fails. *)
Theorem read_item_log_levels (w : world) (request : Request) (item_id : Z) :
  route request = GetItem item_id →
  writes_from_info (root_logger w) →
  let w' := snd (fastapi.endpoint request w) in
  new_levels w w'
  = match faults w (length (sessions w)) OpQuery with
    | Some _ => [logging.INFO; logging.ERROR]
    | None =>
        match find_row item_id (table w) with
        | Some _ => [logging.INFO; logging.INFO]
        | None => [logging.INFO; logging.WARNING; logging.ERROR]
        end
    end.
Proof.
  intros Hr Hlog. unfold fastapi.endpoint, fastapi.router. rewrite Hr.
  destruct w; unfold new_levels; cbn in *. open_logger Hlog.
  destruct (faults0 (length sessions0) OpQuery) eqn:Hq;
    [|destruct (find_row item_id table0) eqn:Hrow];
    (exec_logged ltac:(rewrite ?Hq, ?Hrow, ?Hl20, ?Hl30, ?Hl40, ?Hh20, ?Hh30, ?Hh40));
    rewrite <- ?app_assoc, drop_app_length; done.
Qed.

Lemma post_invalid_output (w : world) (request : Request)
    (body : gmap string json) (errors : list ErrorDetail) :
  route request = PostItems body →
  validate_ItemCreate body = inr errors →
  let w' := snd (fastapi.endpoint request w) in
  ∃ r, output w'
       = output w ++ logging.handle (logging.with_default_handler (root_logger w)) r
       ∧ levelno r = logging.ERROR.
Proof.
  intros Hr Hv. unfold fastapi.endpoint, fastapi.router, fastapi.post_items.
  rewrite Hr, Hv. destruct w; cbn in *. exec. by eexists.
Qed.

(** A logger that writes from INFO upwards needs no default handler and
    writes every record from INFO upwards once. *)
Lemma writes_from_info_handle (lg : Logger) (r : LogRecord) :
  writes_from_info lg → logging.INFO ≤ levelno r →
  logging.with_default_handler lg = lg ∧ logging.handle lg r = [r].
Proof.
  intros (h & Hh & Hhl & Hl) Hr.
  unfold logging.with_default_handler, logging.handle, logging.INFO in *.
  rewrite Hh. split; [done|].
  rewrite (proj2 (Z.ltb_ge (levelno r) (level lg))) by lia. cbn.
  by rewrite (proj2 (Z.leb_le (handler_level h) (levelno r))) by lia.
Qed.

(** X23.  What a create request logs, when the logger writes from INFO
    upwards: one ERROR record for a body that does not validate; two INFO
    records when the item is created; an INFO and an ERROR record when a
    database call fails.  Every answer other than 200 is preceded by an
    ERROR record. *)
Theorem create_item_log_levels (w : world) (request : Request)
    (body : gmap string json) :
  route request = PostItems body →
  writes_from_info (root_logger w) →
  let w' := snd (fastapi.endpoint request w) in
  new_levels w w'
  = match validate_ItemCreate body with
    | inr _ => [logging.ERROR]
    | inl _ =>
        match create_failure w (length (sessions w)) with
        | None => [logging.INFO; logging.INFO]
        | Some _ => [logging.INFO; logging.ERROR]
        end
    end.
Proof.
  intros Hr Hlog. cbn. unfold new_levels.
  destruct (validate_ItemCreate body) as [item|errors] eqn:Hv.
  - assert (body !! "name" = Some (JString (name item))
            ∧ body !! "description" = Some (JString (description item))) as [Hn Hd].
    { unfold validate_ItemCreate, validate_str in Hv.
      destruct (body !! "name") as [[]|]; destruct (body !! "description") as [[]|];
        try discriminate. by injection Hv as <-. }
    pose proof (post_valid_run w request body _ _ Hr Hn Hd) as H. cbn in H.
    destruct (fastapi.endpoint request w) as [r w']. cbn.
    destruct H as (_ & _ & _ & r1 & r2 & -> & H1 & H2).
    destruct (writes_from_info_handle _ r1 Hlog) as [-> ->]; [lia|].
    destruct (writes_from_info_handle _ r2 Hlog) as [-> ->].
    { rewrite H2. destruct (create_failure _ _); unfold logging.INFO, logging.ERROR; lia. }
    rewrite <- app_assoc, drop_app_length. cbn. rewrite H1, H2.
    by destruct (create_failure _ _).
  - destruct (post_invalid_output w request body errors Hr Hv) as (r1 & -> & H1).
    destruct (writes_from_info_handle _ r1 Hlog) as [-> ->].
    { rewrite H1. unfold logging.INFO, logging.ERROR; lia. }
    rewrite drop_app_length. cbn. by rewrite H1.
Qed.

End HandlerLogs.

(** ** Concrete runs of the further properties *)

Section MoreRuns.
Import startup.

Lemma startup_event_ready_iff_witness :
  ((2 < 5)%nat
   ∧ (∀ j, (j < 2)%nat → unreachable_at boot_late j)
   ∧ create_tables_outcome boot_late (create_tables_calls boot_late + 2) = None)
  ∧ final_state (fst (startup_event boot_late)) = Ready.
Proof.
  assert (∀ j, (j < 2)%nat → unreachable_at boot_late j) as Hdown.
  { intros j Hj. destruct j as [|[|j]]; [| |lia];
      (eexists; split; reflexivity). }
  split; [repeat split; (lia || done)|].
  apply (proj2 (startup_event_ready_iff boot_late)).
  exists 2%nat. repeat split; (lia || done).
Defined.

Lemma startup_event_failure_is_last_error_witness :
  let e := SQLAlchemyError (OperationalError "connection refused") in
  final_state (fst (startup_event boot_down)) = Failed e
  ∧ let b' := snd (startup_event boot_down) in
    (0 < attempts (new_events boot_down b'))%nat
    ∧ create_tables_outcome boot_down
        (create_tables_calls boot_down + (attempts (new_events boot_down b') - 1))
      = Some e.
Proof.
  intros e.
  assert (final_state (fst (startup_event boot_down)) = Failed e) as Hfail
    by (vm_compute; reflexivity).
  split; [exact Hfail|].
  exact (startup_event_failure_is_last_error boot_down e Hfail).
Defined.

Lemma create_item_outcomes_witness :
  let w := fresh_world connection_gone ∅ in
  route (post widget) = PostItems widget
  ∧ let r := fst (fastapi.endpoint (post widget) w) in
    let db := length (sessions w) in
    match schemas.validate_ItemCreate widget with
    | inr errors => r = inl {| status_code := 422; content := DetailErrors errors |}
    | inl _ =>
        (∃ response, r = inl response
           ∧ (status_code response = 200 ∨ status_code response = 500))
        ∨ (∃ e, r = inr (SQLAlchemyError e)
             ∧ faults w db OpRollback = Some e
             ∧ is_Some (create_failure w db))
    end.
Proof.
  intros w. split; [reflexivity|].
  exact (create_item_outcomes w (post widget) widget eq_refl).
Defined.

(** Commit and rollback both fail: the error of the rollback escapes. *)
Example create_item_rollback_fails :
  fst (fastapi.endpoint (post widget) (fresh_world connection_gone ∅))
  = inr (SQLAlchemyError (OperationalError "connection lost")).
Proof. vm_compute. reflexivity. Qed.

Lemma widget_name : widget !! "name" = Some (schemas.JString "widget").
Proof. vm_compute. reflexivity. Defined.

Lemma widget_description :
  widget !! "description" = Some (schemas.JString "a small widget").
Proof. vm_compute. reflexivity. Defined.

Lemma create_item_session_calls_witness :
  let w := fresh_world (failing OpCommit) ∅ in
  (route (post widget) = PostItems widget
   ∧ widget !! "name" = Some (schemas.JString "widget")
   ∧ widget !! "description" = Some (schemas.JString "a small widget"))
  ∧ let db := length (sessions w) in
    let w' := snd (fastapi.endpoint (post widget) w) in
    new_calls w w' = (λ op, (db, op)) <$> create_calls (create_failure w db)
    ∧ (OpRollback ∈ create_calls (create_failure w db)
       ↔ is_Some (create_failure w db)).
Proof.
  intros w.
  split; [repeat split; (exact widget_name || exact widget_description)|].
  exact (create_item_session_calls w (post widget) widget "widget" "a small widget"
           eq_refl widget_name widget_description).
Defined.

Example commit_failure_calls :
  let w := fresh_world (failing OpCommit) ∅ in
  new_calls w (snd (fastapi.endpoint (post widget) w))
  = [(0, OpAdd); (0, OpCommit); (0, OpRollback)]%nat.
Proof. vm_compute. reflexivity. Qed.

Lemma create_then_get_witness :
  let w := fresh_world no_faults ∅ in
  (route (post widget) = PostItems widget
   ∧ widget !! "name" = Some (schemas.JString "widget")
   ∧ widget !! "description" = Some (schemas.JString "a small widget")
   ∧ faults w (length (sessions w)) OpAdd = None
   ∧ faults w (length (sessions w)) OpCommit = None
   ∧ faults w (length (sessions w)) OpRefresh = None
   ∧ store_ok w)
  ∧ let (r, w') := fastapi.endpoint (post widget) w in
    ∀ request',
      route request' = GetItem (next_id w) →
      faults w' (length (sessions w')) OpQuery = None →
      fst (fastapi.endpoint request' w') = r.
Proof.
  intros w.
  split; [repeat split;
          (exact widget_name || exact widget_description || reflexivity || constructor)|].
  exact (create_then_get w (post widget) widget "widget" "a small widget"
           eq_refl widget_name widget_description eq_refl eq_refl eq_refl
           (fresh_world_store_ok _ _)).
Defined.


Lemma read_item_read_only_witness :
  route get_item_1 = GetItem 1
  ∧ let (r, w') := fastapi.endpoint get_item_1 world_with_widget in
    (∃ response, r = inl response ∧ status_code response ∈ [200; 404; 500])
    ∧ new_calls world_with_widget w' = [(length (sessions world_with_widget), OpQuery)]
    ∧ table w' = table world_with_widget
    ∧ next_id w' = next_id world_with_widget.
Proof.
  split; [reflexivity|].
  exact (read_item_read_only world_with_widget get_item_1 1 eq_refl).
Defined.

Lemma widget_row_stored :
  NoDup (row_id <$> table world_with_widget) ∧ widget_row ∈ table world_with_widget.
Proof.
  assert (table world_with_widget = [widget_row]) as -> by (vm_compute; reflexivity).
  split; [apply NoDup_singleton | apply list_elem_of_singleton; reflexivity].
Defined.

Lemma stored_item_stays_witness :
  let requests := [post nameless; post widget; get_item_1] in
  (NoDup (row_id <$> table world_with_widget)
   ∧ widget_row ∈ table world_with_widget)
  ∧ let w' := snd (serve_all requests world_with_widget) in
    ∀ request,
      route request = GetItem (row_id widget_row) →
      faults w' (length (sessions w')) OpQuery = None →
      fst (fastapi.endpoint request w')
      = inl {| status_code := 200; content := ItemContent (item_of_row widget_row) |}.
Proof.
  intros requests. split; [exact widget_row_stored|].
  exact (stored_item_stays requests world_with_widget widget_row
           (proj1 widget_row_stored) (proj2 widget_row_stored)).
Defined.

Lemma store_ok_serve_all_witness :
  let w := fresh_world (failing OpRefresh) ∅ in
  let requests := [post widget; post nameless; post widget; get_item_1] in
  store_ok w ∧ store_ok (snd (serve_all requests w)).
Proof.
  intros w requests. split; [apply fresh_world_store_ok|].
  exact (store_ok_serve_all requests w (fresh_world_store_ok _ _)).
Defined.

(** Two items are stored although both creates were answered with 500. *)
Example refresh_failures_keep_ids_apart :
  let w := fresh_world (failing OpRefresh) ∅ in
  row_id <$> table (snd (serve_all [post widget; post nameless; post widget] w))
  = [1; 2].
Proof. vm_compute. reflexivity. Qed.

Example sessions_after_three_requests :
  sessions (snd (serve_all [post widget; scrape; get_item_1] (fresh_world no_faults ∅)))
  = [closed_session; closed_session].
Proof. vm_compute. reflexivity. Qed.

Lemma post_widget_returns :
  let w := fresh_world no_faults ∅ in
  fastapi.endpoint (post widget) (entered w)
  = (inl (widget_response 1), snd (fastapi.endpoint (post widget) (entered w))).
Proof. vm_compute. reflexivity. Defined.

Lemma request_latency_observation_witness :
  let w := fresh_world no_faults ∅ in
  let w1 := snd (fastapi.endpoint (post widget) (entered w)) in
  fastapi.endpoint (post widget) (entered w) = (inl (widget_response 1), w1)
  ∧ let w' := snd (fastapi.app (post widget) w) in
    REQUEST_LATENCY w'
    = REQUEST_LATENCY w ++ [time_source w (S (time_calls w)) - time_source w (time_calls w)]
    ∧ time_calls w' = S (S (time_calls w)).
Proof.
  intros w w1. split; [exact post_widget_returns|].
  exact (request_latency_observation w (post widget) (widget_response 1) w1
           post_widget_returns).
Defined.

Lemma post_unknown_peer_returns :
  let w := fresh_world no_faults ∅ in
  fastapi.endpoint post_unknown_peer (entered w)
  = (inl (widget_response 1), snd (fastapi.endpoint post_unknown_peer (entered w))).
Proof. vm_compute. reflexivity. Defined.

Lemma request_without_client_witness :
  let w := fresh_world no_faults ∅ in
  let w1 := snd (fastapi.endpoint post_unknown_peer (entered w)) in
  (client post_unknown_peer = None
   ∧ fastapi.endpoint post_unknown_peer (entered w) = (inl (widget_response 1), w1))
  ∧ let (r, w') := fastapi.app post_unknown_peer w in
    r = {| status_code := 500; content := PlainText "Internal Server Error" |}
    ∧ table w' = table w1
    ∧ output w' = output w1
    ∧ REQUEST_COUNT w' = REQUEST_COUNT w + 1
    ∧ IN_PROGRESS w' = IN_PROGRESS w.
Proof.
  intros w w1. split; [split; [reflexivity | exact post_unknown_peer_returns]|].
  exact (request_without_client w post_unknown_peer (widget_response 1) w1
           eq_refl post_unknown_peer_returns).
Defined.

(** The item is stored, the client is told 500. *)
Example unknown_peer_loses_response :
  let (r, w') := fastapi.app post_unknown_peer (fresh_world no_faults ∅) in
  status_code r = 500 ∧ table w' = [widget_row].
Proof. vm_compute. done. Qed.

Lemma request_with_client_witness :
  let w := fresh_world no_faults ∅ in
  let w1 := snd (fastapi.endpoint (post widget) (entered w)) in
  (client (post widget) = Some "127.0.0.1"
   ∧ fastapi.endpoint (post widget) (entered w) = (inl (widget_response 1), w1))
  ∧ let (r, w') := fastapi.app (post widget) w in
    r = widget_response 1
    ∧ output w'
      = output w1
        ++ logging.handle (root_logger w1)
             (request_line (post widget) (widget_response 1) "127.0.0.1"
                (time_source w (S (time_calls w)) - time_source w (time_calls w))).
Proof.
  intros w w1. split; [split; [reflexivity | exact post_widget_returns]|].
  exact (request_with_client w (post widget) (widget_response 1) w1 "127.0.0.1"
           eq_refl post_widget_returns).
Defined.

Lemma metrics_scrape_witness :
  let w := snd (fastapi.app (post widget) (fresh_world no_faults ∅)) in
  (route scrape = GetMetrics ∧ client scrape = Some "127.0.0.1")
  ∧ let (r, w') := fastapi.app scrape w in
    r = {| status_code := 200;
           content := MetricsText (REQUEST_COUNT w) (REQUEST_LATENCY w)
                        (IN_PROGRESS w + 1) |}
    ∧ REQUEST_COUNT w' = REQUEST_COUNT w + 1
    ∧ IN_PROGRESS w' = IN_PROGRESS w.
Proof.
  intros w. split; [split; reflexivity|].
  exact (metrics_scrape w scrape "127.0.0.1" eq_refl eq_refl).
Defined.

(** After one request, a scrape shows one request and one in progress. *)
Example scrape_after_one_request :
  fst (fastapi.app scrape (snd (fastapi.app (post widget) (fresh_world no_faults ∅))))
  = {| status_code := 200; content := MetricsText 1 [1] 1 |}.
Proof. vm_compute. reflexivity. Qed.

Lemma setup_logging_failure_witness :
  let w := fresh_world no_faults {[ "LOG_LEVEL" := "basic_format" ]} in
  let e := ValueError "Unknown level: %(levelname)s:%(name)s:%(message)s" in
  fst (observability.setup_logging w) = inr e
  ∧ let w' := snd (observability.setup_logging w) in
    handlers (root_logger w') = []
    ∧ level (root_logger w') = level (root_logger w)
    ∧ ∃ m, e = ValueError m ∨ e = TypeError m.
Proof.
  intros w e.
  assert (fst (observability.setup_logging w) = inr e) as Hfail
    by (vm_compute; reflexivity).
  split; [exact Hfail|].
  exact (setup_logging_failure w e Hfail).
Defined.

Lemma setup_logging_error_run :
  let w := fresh_world no_faults {[ "LOG_LEVEL" := "error" ]} in
  observability.setup_logging w = (inl tt, snd (observability.setup_logging w)).
Proof. vm_compute. reflexivity. Defined.

Lemma setup_logging_again_witness :
  let w := fresh_world no_faults {[ "LOG_LEVEL" := "error" ]} in
  let w1 := snd (observability.setup_logging w) in
  observability.setup_logging w = (inl tt, w1)
  ∧ (∃ h, handlers (root_logger w1) = [h]
          ∧ json_format h = true
          ∧ handler_level h = level (root_logger w1))
  ∧ fst (observability.setup_logging w1) = inl tt
  ∧ root_logger (snd (observability.setup_logging w1)) = root_logger w1.
Proof.
  intros w w1. split; [exact setup_logging_error_run|].
  exact (setup_logging_again w w1 setup_logging_error_run).
Defined.


(** At level ERROR a create that goes through leaves no line, a failed
    one leaves the line of its handler. *)
Example error_level_output :
  let configured fl :=
    snd (observability.setup_logging (fresh_world fl {[ "LOG_LEVEL" := "error" ]})) in
  output (snd (fastapi.app (post widget) (configured no_faults))) = []
  ∧ message <$> output (snd (fastapi.app (post widget) (configured (failing OpCommit))))
    = ["Failed to create item: connection lost"].
Proof. vm_compute. done. Qed.


Lemma configured_world_writes fl : writes_from_info (root_logger (configured_world fl)).
Proof.
  exists {| handler_level := 20; handler_stream := stderr; json_format := true |}.
  repeat split; vm_compute; congruence.
Defined.

Lemma read_item_log_levels_witness :
  let w := configured_world no_faults in
  (route get_item_1 = GetItem 1 ∧ writes_from_info (root_logger w))
  ∧ let w' := snd (fastapi.endpoint get_item_1 w) in
    new_levels w w'
    = match faults w (length (sessions w)) OpQuery with
      | Some _ => [logging.INFO; logging.ERROR]
      | None =>
          match find_row 1 (table w) with
          | Some _ => [logging.INFO; logging.INFO]
          | None => [logging.INFO; logging.WARNING; logging.ERROR]
          end
      end.
Proof.
  intros w. split; [split; [reflexivity | apply configured_world_writes]|].
  exact (read_item_log_levels w get_item_1 1 eq_refl (configured_world_writes _)).
Defined.

(** The three records of a get for an item that is not there. *)
Example get_item_404_records :
  (λ r, (levelno r, message r))
    <$> output (snd (fastapi.endpoint get_item_1 (configured_world no_faults)))
  = [(20, "Attempting to retrieve item: 1");
     (30, "Item not found: 1");
     (40, "HTTP error while retrieving item: 1, error: 404: Item not found")].
Proof. vm_compute. reflexivity. Qed.

Lemma create_item_log_levels_witness :
  let w := configured_world (failing OpAdd) in
  (route (post widget) = PostItems widget ∧ writes_from_info (root_logger w))
  ∧ let w' := snd (fastapi.endpoint (post widget) w) in
    new_levels w w'
    = match schemas.validate_ItemCreate widget with
      | inr _ => [logging.ERROR]
      | inl _ =>
          match create_failure w (length (sessions w)) with
          | None => [logging.INFO; logging.INFO]
          | Some _ => [logging.INFO; logging.ERROR]
          end
      end.
Proof.
  intros w. split; [split; [reflexivity | apply configured_world_writes]|].
  exact (create_item_log_levels w (post widget) widget eq_refl (configured_world_writes _)).
Defined.

End MoreRuns.
